(** * rl_utils.plotting.auto_table: a shallow embedding of [plot_table]

    The module under study turns a pandas data frame into a LaTeX table.
    The development below follows [src/rl_utils/plotting/auto_table.py]
    statement by statement:

    - Python values are modelled by small inductive types; Python floats are
      IEEE binary64 numbers, i.e. Rocq's primitive [float], so the model
      runs: [plot_table] evaluates to the very text of the table;
    - exceptions are an explicit [result]; [print] is a log of lines and
      [open]/[write] a log of files: both record what a run leaves behind
      in which printing and writing succeed (a [write_to] that cannot be
      opened is outside the model);
    - the caller's data frame object is threaded through the call, because
      line 95 assigns into it;
    - of pandas, what the function relies on: element-wise [*] on a column,
      [replace], [groupby] (sorted keys, NaN keys dropped), and the grouped
      reductions [mean] and [std], which skip NaN entries.  The reductions
      are pandas' group kernels: a compensated sum over the count for the
      mean, a running mean and sum of squared deviations for the standard
      deviation, run in binary64;
    - a cell of a frame is a binary64 number or a string: a column of
      integers is not modelled (pandas multiplies an int64 column by an
      [int] in wrap-around arithmetic), and a frame without records is
      one of string columns; the column [err_key] names is one of the
      columns other than [row_key], [col_key] and [cell_key];
    - the entries of [row_order] and [col_order] are strings, as annotated;
      the callbacks are total functions. *)

From Stdlib Require Import Reals Lra.
From Stdlib Require Import List String Ascii ZArith NArith Lia Bool.
From Stdlib Require Import Floats DecimalString.
Import ListNotations.
Set Warnings "-inexact-float".
Local Open Scope string_scope.

(** ** Python exceptions and the two effects of the function *)

Module Py.

Inductive exn : Type :=
| TypeError
| KeyError
| IndexError
| OverflowError.

Inductive result (A : Type) : Type :=
| Ok (a : A)
| Raise (e : exn).
Arguments Ok {A} a.
Arguments Raise {A} e.

Definition bind {A B} (m : result A) (k : A -> result B) : result B :=
  match m with
  | Ok a => k a
  | Raise e => Raise e
  end.

(** [map f xs] for an [f] that may raise: the first exception wins. *)
Fixpoint mapM {A B} (f : A -> result B) (xs : list A) : result (list B) :=
  match xs with
  | [] => Ok []
  | x :: xs' =>
      bind (f x) (fun y => bind (mapM f xs') (fun ys => Ok (y :: ys)))
  end.

(** Code that prints: the lines printed so far, and how it ended. *)
Definition io (A : Type) : Type := list string * result A.

Definition ret {A} (a : A) : io A := ([], Ok a).
Definition print (line : string) : io unit := ([line], Ok tt).
Definition lift {A} (m : result A) : io A := ([], m).
Definition iobind {A B} (m : io A) (k : A -> io B) : io B :=
  match m with
  | (out, Ok a) => let (out', r) := k a in (List.app out out', r)
  | (out, Raise e) => (out, Raise e)
  end.

End Py.
Import Py.

Declare Scope py_scope.
Delimit Scope py_scope with py.
Notation "x <- m ;; k" := (Py.bind m (fun x => k))
  (at level 61, m at next level, right associativity) : py_scope.
Notation "x <~ m ;; k" := (Py.iobind m (fun x => k))
  (at level 61, m at next level, right associativity) : py_scope.
Local Open Scope py_scope.

(** ** Strings *)

Definition nl : string := String (ascii_of_nat 10) EmptyString.

(** [sep.join(xs)] *)
Fixpoint join (sep : string) (xs : list string) : string :=
  match xs with
  | [] => ""
  | [x] => x
  | x :: xs' => x ++ sep ++ join sep xs'
  end.

(** [sub in s] on strings. *)
Fixpoint contains (sub s : string) : bool :=
  prefix sub s ||
  match s with
  | EmptyString => false
  | String _ s' => contains sub s'
  end.

(** [s * n] for a string [s]: repetition, empty when [n <= 0]. *)
Fixpoint repeat_string (s : string) (n : nat) : string :=
  match n with
  | O => ""
  | S n' => s ++ repeat_string s n'
  end.

(** [s.replace("%", "\\%").replace("_", " ")] (lines 129-130). *)
Fixpoint clean_text (s : string) : string :=
  match s with
  | EmptyString => EmptyString
  | String c s' =>
      if Ascii.eqb c "%"%char then String "\"%char (String "%"%char (clean_text s'))
      else if Ascii.eqb c "_"%char then String " "%char (clean_text s')
      else String c (clean_text s')
  end.

(** The keys of a dictionary built from a list of keys: each once, in the
    order of first insertion. *)
Fixpoint dict_keys (seen l : list string) : list string :=
  match l with
  | [] => []
  | k :: l' =>
      if existsb (String.eqb k) seen then dict_keys seen l'
      else k :: dict_keys (k :: seen) l'
  end.

(** [dict.get(k, default)] and [k in dict] on dictionaries with string keys. *)
Definition dict (V : Type) : Type := list (string * V).

Fixpoint dict_find {V} (d : dict V) (k : string) : option V :=
  match d with
  | [] => None
  | (k', v) :: d' => if String.eqb k' k then Some v else dict_find d' k
  end.

Definition dict_get {V} (d : dict V) (k : string) (default : V) : V :=
  match dict_find d k with
  | Some v => v
  | None => default
  end.

Definition string_of_nat (n : nat) : string :=
  NilZero.string_of_uint (Nat.to_uint n).

(** ** Floats *)

(** Conversion of a Python [int] to a float (round to nearest even);
    Python raises [OverflowError] beyond the binary64 range. *)
Definition float_of_Z (z : Z) : result float :=
  if (Z.abs z <? 2 ^ 1024)%Z
  then
    let f := SF2Prim (binary_normalize prec emax z 0 false) in
    if is_infinity f then Raise OverflowError else Ok f
  else Raise OverflowError.

Definition float_of_nat (n : nat) : float :=
  SF2Prim (binary_normalize prec emax (Z.of_nat n) 0 false).

(** Left-padding of a digit string with zeros up to [n] characters. *)
Definition zero_pad (n : nat) (s : string) : string :=
  repeat_string "0" (n - String.length s) ++ s.

(** The Python format ["%.<n>f" % x]: the exact binary value is rounded to
    [n] decimals, ties to even. *)
Definition format_fixed (n : nat) (x : float) : string :=
  let frac_of (sign : bool) (q : Z) :=
    let scale := (10 ^ Z.of_nat n)%Z in
    let ip := NilZero.string_of_uint (N.to_uint (Z.to_N (q / scale))) in
    let fp := zero_pad n (NilZero.string_of_uint (N.to_uint (Z.to_N (q mod scale)))) in
    (if sign then "-" else "") ++ ip ++
    (match n with O => "" | S _ => "." ++ fp end) in
  match Prim2SF x with
  | S754_nan => "nan"
  | S754_infinity s => if s then "-inf" else "inf"
  | S754_zero s => frac_of s 0%Z
  | S754_finite s m e =>
      let num := (Z.pos m * 10 ^ Z.of_nat n * 2 ^ Z.max e 0)%Z in
      let den := (2 ^ Z.max (- e) 0)%Z in
      let q := (num / den)%Z in
      let r := (num mod den)%Z in
      let q' :=
        if (den <? 2 * r)%Z then (q + 1)%Z
        else if (2 * r =? den)%Z then (if Z.even q then q else q + 1)%Z
        else q in
      frac_of s q'
  end.

(** ** pandas: cells, frames, [replace], [groupby], [mean], [std] *)

(** A cell of the frame holds a number or a string (the sentinel markers
    ["missing"] and ["error"] are strings). *)
Inductive cell : Type :=
| VNum (x : float)
| VStr (s : string).

(** A Python number passed as a scaling factor: [int] or [float]. *)
Inductive scalar : Type :=
| SInt (z : Z)
| SFloat (x : float).

(** One record of the frame.  The three columns named by [row_key],
    [col_key] and [cell_key] are fields; every other column (among them
    the one [err_key] may name) is kept by name. *)
Record record : Type := mkRecord {
  at_row_key : cell;
  at_col_key : cell;
  at_cell_key : cell;
  others : dict cell
}.

Definition dataframe : Type := list record.

(** A [pd.Series] of floats indexed by group keys. *)
Definition series : Type := list (cell * float).

(** [x * k] for a cell [x]: float arithmetic on numbers, repetition for
    [str * int], and [TypeError] for [str * float]. *)
Definition py_mul (v : cell) (k : scalar) : result cell :=
  match v, k with
  | VNum x, SFloat y => Ok (VNum (x * y)%float)
  | VNum x, SInt z => y <- float_of_Z z ;; Ok (VNum (x * y)%float)
  | VStr s, SInt z => Ok (VStr (repeat_string s (Z.to_nat z)))
  | VStr _, SFloat _ => Raise TypeError
  end.

Definition float_mul (x : float) (k : scalar) : result float :=
  match k with
  | SFloat y => Ok (x * y)%float
  | SInt z => y <- float_of_Z z ;; Ok (x * y)%float
  end.

Definition set_cell (r : record) (v : cell) : record :=
  mkRecord (at_row_key r) (at_col_key r) v (others r).

(** [df[cell_key] * value_scaling], then the assignment to [df[cell_key]]. *)
Definition scale_column (df : dataframe) (k : scalar) : result dataframe :=
  mapM (fun r => v <- py_mul (at_cell_key r) k ;; Ok (set_cell r v)) df.

(** [df.replace(marker, fill)]: every cell of every column that equals the
    marker. *)
Definition replace_cell (marker : string) (fill : float) (v : cell) : cell :=
  match v with
  | VStr s => if String.eqb s marker then VNum fill else v
  | VNum _ => v
  end.

Definition replace (marker : string) (fill : float) (df : dataframe) : dataframe :=
  map (fun r =>
         mkRecord (replace_cell marker fill (at_row_key r))
                  (replace_cell marker fill (at_col_key r))
                  (replace_cell marker fill (at_cell_key r))
                  (map (fun kv => (fst kv, replace_cell marker fill (snd kv)))
                       (others r)))
      df.

(** Python's [==] and the order [groupby] sorts its keys by (numbers
    before strings). *)
Definition key_eqb (a b : cell) : bool :=
  match a, b with
  | VNum x, VNum y => PrimFloat.eqb x y
  | VStr s, VStr t => String.eqb s t
  | _, _ => false
  end.

Definition key_leb (a b : cell) : bool :=
  match a, b with
  | VNum x, VNum y => PrimFloat.leb x y
  | VNum _, VStr _ => true
  | VStr _, VNum _ => false
  | VStr s, VStr t => String.leb s t
  end.

Fixpoint insert_key (k : cell) (ks : list cell) : list cell :=
  match ks with
  | [] => [k]
  | k' :: ks' => if key_leb k k' then k :: ks else k' :: insert_key k ks'
  end.

Fixpoint sort_keys (ks : list cell) : list cell :=
  match ks with
  | [] => []
  | k :: ks' => insert_key k (sort_keys ks')
  end.

(** The distinct keys in order of first occurrence; a NaN key (the only
    value with [k != k]) is dropped, as [groupby] does. *)
Fixpoint unique_keys (seen ks : list cell) : list cell :=
  match ks with
  | [] => []
  | k :: ks' =>
      if key_eqb k k && negb (existsb (key_eqb k) seen)
      then k :: unique_keys (k :: seen) ks'
      else unique_keys seen ks'
  end.

(** [for k, g in xs.groupby(key)] *)
Definition groupby {A} (key : A -> cell) (xs : list A) : list (cell * list A) :=
  map (fun k => (k, filter (fun x => key_eqb (key x) k) xs))
      (sort_keys (unique_keys [] (map key xs))).

(** [s in d] and [d[s]] for a string [s] and an index of cells. *)
Definition key_is (s : string) (k : cell) : bool :=
  match k with
  | VStr t => String.eqb t s
  | VNum _ => false
  end.

Fixpoint lookup {V} (s : string) (d : list (cell * V)) : option V :=
  match d with
  | [] => None
  | (k, v) :: d' => if key_is s k then Some v else lookup s d'
  end.

Definition as_float (v : cell) : result float :=
  match v with
  | VNum x => Ok x
  | VStr _ => Raise TypeError
  end.

(** *** The grouped reductions

    [grouped[column].mean()] and [grouped[column].std()] run the group
    kernels [group_mean] and [group_var] of pandas 2 ([_libs/groupby.pyx]),
    which pandas writes once for every floating type.  The arithmetic is
    therefore a parameter: the program runs the kernels in binary64. *)
Record arith (T : Type) : Type := mkArith {
  zero : T;
  not_a_number : T;
  add : T -> T -> T;
  sub : T -> T -> T;
  mul : T -> T -> T;
  div : T -> T -> T;
  root : T -> T;
  of_count : nat -> T;
  is_na : T -> bool
}.

Arguments zero {T}.
Arguments not_a_number {T}.
Arguments add {T}.
Arguments sub {T}.
Arguments mul {T}.
Arguments div {T}.
Arguments root {T}.
Arguments of_count {T}.
Arguments is_na {T}.

Section Reductions.

Context {T : Type} (F : arith T).

(** One entry of a group in [group_mean]: a compensated sum (the lost
    low-order part of every addition is carried to the next one; a
    compensation that became NaN is dropped), and the number of entries
    that are not NaN. *)
Definition mean_step (st : T * T * nat) (val : T) : T * T * nat :=
  let '(sumx, compensation, nobs) := st in
  if is_na F val then st
  else
    let y := sub F val compensation in
    let t := add F sumx y in
    let compensation := sub F (sub F t sumx) y in
    let compensation := if is_na F compensation then zero F else compensation in
    (t, compensation, S nobs).

Definition group_mean (xs : list T) : T :=
  let '(sumx, _, nobs) := fold_left mean_step xs (zero F, zero F, 0) in
  match nobs with
  | O => not_a_number F
  | S _ => div F sumx (of_count F nobs)
  end.

(** One entry of a group in [group_var]: the running mean and the running
    sum of squared deviations. *)
Definition var_step (st : T * T * nat) (val : T) : T * T * nat :=
  let '(mean, out, nobs) := st in
  if is_na F val then st
  else
    let nobs := S nobs in
    let oldmean := mean in
    let mean := add F mean (div F (sub F val oldmean) (of_count F nobs)) in
    let out := add F out (mul F (sub F val mean) (sub F val oldmean)) in
    (mean, out, nobs).

(** [std] is [group_var] with [ddof = 1] and the square root. *)
Definition group_std (xs : list T) : T :=
  let '(_, out, nobs) := fold_left var_step xs (zero F, zero F, 0) in
  if Nat.leb nobs 1 then not_a_number F
  else root F (div F out (sub F (of_count F nobs) (of_count F 1))).

End Reductions.

(** Python floats: IEEE binary64; an entry is missing when [val != val]. *)
Definition binary64 : arith float :=
  mkArith float 0%float nan PrimFloat.add PrimFloat.sub PrimFloat.mul
          PrimFloat.div PrimFloat.sqrt float_of_nat
          (fun x => negb (PrimFloat.eqb x x)).

Definition mean (xs : list float) : float := group_mean binary64 xs.

Definition std (xs : list float) : float := group_std binary64 xs.

Definition hasnans (s : series) : bool :=
  existsb (fun kv => negb (PrimFloat.eqb (snd kv) (snd kv))) s.

(** [grouped[column]] for [grouped = row_df.groupby(col_key)]: the values
    of one column, group by group.  Selecting a column the frame lacks
    raises [KeyError]. *)
Definition select (field : record -> result cell) (row_df : list record)
  : result (list (cell * list cell)) :=
  _ <- mapM field row_df ;;
  mapM (fun kg => vs <- mapM field (snd kg) ;; Ok (fst kg, vs))
       (groupby at_col_key row_df).

(** A numeric reduction of every group; a string left in the column
    raises [TypeError]. *)
Definition reduce (f : list float -> float) (grouped : list (cell * list cell))
  : result series :=
  mapM (fun kg => xs <- mapM as_float (snd kg) ;; Ok (fst kg, f xs)) grouped.

Definition cell_column (r : record) : result cell := Ok (at_cell_key r).

Definition named_column (name : string) (r : record) : result cell :=
  match dict_find (others r) name with
  | Some v => Ok v
  | None => Raise KeyError
  end.

(** ** The arguments of [plot_table] *)

(** What a highlight callback returns and [in] is then applied to:
    [None], a string, or a list of names. *)
Inductive selection : Type :=
| SelNone
| SelStr (s : string)
| SelList (l : list string).

(** The keyword arguments, under their names.  [col_key], [row_key] and
    [cell_key] select the three fields of [record]. *)
Record args : Type := mkArgs {
  col_order : list string;
  row_order : list string;
  renames : option (dict string);
  error_scaling : float;
  n_decimals : nat;
  missing_fill_value : float;
  error_fill_value : float;
  get_row_highlights : option (string -> series -> selection);
  get_col_highlights : option (string -> series -> selection);
  make_col_header : option (nat -> string);
  x_label : string;
  y_label : string;
  skip_toprule : bool;
  include_err : bool;
  write_to : option string;
  err_key : option string;
  add_tabular : bool;
  add_botrule : bool;
  name_bold_fn : option (string -> string);
  show_row_labels : bool;
  show_col_labels : bool;
  compute_err_fn : option (list (cell * list float) -> series);
  value_scaling : scalar;
  midrule_formatting : string;
  botrule_formatting : string;
  text_columns : option (dict (dict string));
  alternating_color_rows : bool;
  custom_cell_format_fn :
    option (float -> float -> string -> string -> selection -> string)
}.

(** What a call leaves behind: the caller's frame object, the lines
    printed, the files written, and the value returned or the exception. *)
Record outcome : Type := mkOutcome {
  frame : dataframe;
  stdout : list string;
  files : list (string * string);
  returned : result string
}.

Definition col_sep : string := " & ".
Definition row_sep : string := " \\" ++ nl.

Section PlotTable.

Variable a : args.

Definition renames_dict : dict string :=
  match renames a with Some d => d | None => [] end.

Definition text_columns_dict : dict (dict string) :=
  match text_columns a with Some d => d | None => [] end.

(** [clean_text(renames.get(k, k))] *)
Definition display (k : string) : string :=
  clean_text (dict_get renames_dict k k).

(** Lines 103-104. *)
Definition sanitize (df : dataframe) : dataframe :=
  replace "error" (error_fill_value a) (replace "missing" (missing_fill_value a) df).

(** Lines 108-122: the pair stored in [rows[row_k]]. *)
Definition row_stats (row_df : list record) : result (series * series) :=
  grouped <- select cell_column row_df ;;
  df_avg_y <- reduce mean grouped ;;
  sd <- reduce std grouped ;;
  let df_std_y := map (fun kv => (fst kv, (snd kv * error_scaling a)%float)) sd in
  chosen <-
    match err_key a with
    | Some name =>
        errs <- select (named_column name) row_df ;;
        err <- reduce mean errs ;;
        Ok (if hasnans err then (df_std_y, false) else (err, true))
    | None => Ok (df_std_y, false)
    end ;;
  let '(df_std_y, sel_err) := chosen in
  match compute_err_fn a with
  | Some f =>
      if sel_err then Ok (df_avg_y, df_std_y)
      else
        values <- mapM (fun kg => xs <- mapM as_float (snd kg) ;; Ok (fst kg, xs))
                       grouped ;;
        Ok (df_avg_y, f values)
  | None => Ok (df_avg_y, df_std_y)
  end.

(** Lines 106-122: the dictionary [rows]. *)
Definition aggregate (df : dataframe) : result (list (cell * (series * series))) :=
  mapM (fun kg => st <- row_stats (snd kg) ;; Ok (fst kg, st))
       (groupby at_row_key df).

(** Lines 133-138: the column title row. *)
Definition header_line : string :=
  join col_sep
    (List.app (if show_row_labels a then [""] else [])
       (map (fun col_k => "\textbf{" ++ display col_k ++ "}") (col_order a))).

(** Lines 148-152. *)
Definition row_label (row_k : string) : list string :=
  if show_row_labels a then
    match name_bold_fn a with
    | None => ["\textbf{" ++ display row_k ++ "}"]
    | Some f => [f (display row_k)]
    end
  else [].

(** Line 206: [sel_cols is not None and col_k in sel_cols]. *)
Definition selected (col_k : string) (sel : selection) : bool :=
  match sel with
  | SelNone => false
  | SelStr s => contains col_k s
  | SelList l => existsb (String.eqb col_k) l
  end.

(** Lines 165-171: the values of one column over all the rows. *)
Definition col_values (rows : list (cell * (series * series))) (col : string)
  : series :=
  flat_map (fun kr => match lookup col (fst (snd kr)) with
                      | Some v => [(fst kr, v)]
                      | None => []
                      end) rows.

(** Lines 161-184. *)
Definition highlights (rows : list (cell * (series * series)))
    (row_k : string) (row_y : series) : result selection :=
  match get_row_highlights a, get_col_highlights a with
  | Some f, _ => Ok (f row_k row_y)
  | None, Some g =>
      picks <- mapM (fun col_k =>
                       match g col_k (col_values rows col_k) with
                       | SelNone => Raise TypeError
                       | SelStr s => Ok (col_k, contains row_k s)
                       | SelList l => Ok (col_k, existsb (String.eqb row_k) l)
                       end)
                    (dict_keys [] (col_order a)) ;;
      Ok (SelList (map fst (filter snd picks)))
  | None, None => Ok SelNone
  end.

(** Lines 199-209: the text of a numeric cell. *)
Definition cell_text (val std : float) (col_k row_k : string) (sel_cols : selection)
  : string :=
  match custom_cell_format_fn a with
  | None =>
      let err :=
        if include_err a && negb (is_nan std)
        then "{\scriptsize " ++ ("$ \pm$ " ++ format_fixed (n_decimals a) std ++ " ") ++ " }"
        else "" in
      let txt := " " ++ format_fixed (n_decimals a) val ++ " " ++ err in
      if selected col_k sel_cols then "\textbf{ " ++ txt ++ " }" else txt
  | Some f => f val std col_k row_k sel_cols
  end.

(** Lines 187-210: one cell. *)
Definition render_cell (row_k : string) (row_y row_std : series)
    (sel_cols : selection) (col_k : string) : result string :=
  match dict_find text_columns_dict col_k with
  | Some texts => Ok (dict_get texts row_k "-")
  | None =>
      match lookup col_k row_y with
      | None => Ok "-"
      | Some val =>
          std <- match lookup col_k row_std with
                 | Some s => Ok s
                 | None => Raise KeyError
                 end ;;
          missing <- float_mul (missing_fill_value a) (value_scaling a) ;;
          if PrimFloat.eqb val missing then Ok "-"
          else if PrimFloat.eqb val (error_fill_value a) then Ok "E"
          else Ok (cell_text val std col_k row_k sel_cols)
      end
  end.

(** Lines 140-216: the loop over [row_order], with its counter. *)
Fixpoint render_rows (rows : list (cell * (series * series)))
    (row_index : nat) (order : list string) : io (list string) :=
  match order with
  | [] => ret []
  | row_k :: rest =>
      if String.eqb row_k "hline" then
        lines <~ render_rows rows 0 rest ;;
        ret ("\hline" :: lines)
      else
        match lookup row_k rows with
        | None =>
            _ <~ print ("Could not find  " ++ row_k) ;;
            lines <~ render_rows rows row_index rest ;;
            ret (join col_sep
                   (List.app (row_label row_k) (map (fun _ => "") (col_order a)))
                   :: lines)
        | Some (row_y, row_std) =>
            sel_cols <~ lift (highlights rows row_k row_y) ;;
            cells <~ lift (mapM (render_cell row_k row_y row_std sel_cols)
                                (col_order a)) ;;
            let row_index := S row_index in
            let row_str := join col_sep (List.app (row_label row_k) cells) in
            let row_str :=
              if Nat.eqb (row_index mod 2) 0 && alternating_color_rows a
              then "\rowcolor{Gray} " ++ row_str else row_str in
            lines <~ render_rows rows row_index rest ;;
            ret (row_str :: lines)
        end
  end.

(** Lines 257-268: the rows with their separators. *)
Fixpoint join_rows (row_lines : list string) : string :=
  match row_lines with
  | [] => ""
  | row_line :: rest =>
      let sep :=
        match rest with
        | [] => if add_botrule a then
                  (if contains "hline" row_line then nl else row_sep)
                else ""
        | _ :: _ => if contains "hline" row_line then nl else row_sep
        end in
      row_line ++ sep ++ join_rows rest
  end.

(** Lines 218-278: the block around the rows. *)
Definition assemble (header : string) (lines : list string) : result string :=
  let n_columns := (List.length (col_order a) + (if show_row_labels a then 1 else 0))%nat in
  let col_header_s :=
    match make_col_header a with
    | Some f => f n_columns
    | None => repeat_string "c" n_columns
    end in
  layout <-
    (if String.eqb (y_label a) "" then
       Ok (col_header_s, "", "\toprule" ++ nl,
           midrule_formatting a, botrule_formatting a, lines)
     else
       let midrule := "\cmidrule{2-" ++ string_of_nat (n_columns + 1) ++ "}" ++ nl in
       match map (fun x => " & " ++ x) lines with
       | [] => Raise IndexError
       | first :: more =>
           Ok ("c" ++ col_header_s, " & ", "", midrule, midrule,
               ("\multirow{4}{1em}{\rotatebox{90}{" ++ y_label a ++ "}}" ++ first)
                 :: more)
       end) ;;
  let '(col_header_s, start_of_line, toprule, midrule, botrule, row_lines) := layout in
  let toprule := if skip_toprule a then "" else toprule in
  let toprule :=
    if String.eqb (x_label a) "" then toprule
    else toprule ++ ("& \multicolumn{" ++ string_of_nat n_columns ++ "}{c}{"
                       ++ x_label a ++ "}") ++ row_sep in
  let ret_s := "" in
  let ret_s :=
    if add_tabular a
    then ret_s ++ ("\begin{tabular}{" ++ col_header_s ++ "}" ++ nl) ++ toprule
    else ret_s in
  let ret_s :=
    if show_col_labels a
    then (ret_s ++ (start_of_line ++ header ++ row_sep)) ++ midrule
    else ret_s in
  let ret_s := ret_s ++ join_rows row_lines in
  let ret_s :=
    if add_tabular a
    then (ret_s ++ botrule) ++ (nl ++ "\end{tabular}" ++ nl)
    else ret_s in
  let ret_s := if add_botrule a then ret_s ++ botrule else ret_s in
  Ok ret_s.

(** The whole function.  [df] is the caller's frame object: line 95 assigns
    the scaled column into it, lines 103-104 rebind the local name to
    copies.  Lines 280-285 are those of a run in which [open], [write] and
    [print] succeed. *)
Definition plot_table (df : dataframe) : outcome :=
  match scale_column df (value_scaling a) with
  | Raise e => mkOutcome df [] [] (Raise e)
  | Ok scaled =>
      match aggregate (sanitize scaled) with
      | Raise e => mkOutcome scaled [] [] (Raise e)
      | Ok rows =>
          match render_rows rows 0 (row_order a) with
          | (out, Raise e) => mkOutcome scaled out [] (Raise e)
          | (out, Ok lines) =>
              match assemble header_line lines with
              | Raise e => mkOutcome scaled out [] (Raise e)
              | Ok ret_s =>
                  match write_to a with
                  | Some path =>
                      mkOutcome scaled (List.app out ["Wrote result to " ++ path])
                                [(path, ret_s)] (Ok ret_s)
                  | None => mkOutcome scaled (List.app out [ret_s]) [] (Ok ret_s)
                  end
              end
          end
      end
  end.

End PlotTable.

(** The defaults of the signature; [MISSING_VALUE] is imported from
    [rl_utils.plotting.utils] and is a parameter here. *)
Definition default_args (MISSING_VALUE : float) (col_order row_order : list string)
  : args :=
  {| col_order := col_order;
     row_order := row_order;
     renames := None;
     error_scaling := 1%float;
     n_decimals := 2;
     missing_fill_value := MISSING_VALUE;
     error_fill_value := 0.3444%float;
     get_row_highlights := None;
     get_col_highlights := None;
     make_col_header := None;
     x_label := "";
     y_label := "";
     skip_toprule := false;
     include_err := true;
     write_to := None;
     err_key := None;
     add_tabular := true;
     add_botrule := false;
     name_bold_fn := None;
     show_row_labels := true;
     show_col_labels := true;
     compute_err_fn := None;
     value_scaling := SFloat 1%float;
     midrule_formatting := "\midrule" ++ nl;
     botrule_formatting := "\bottomrule";
     text_columns := None;
     alternating_color_rows := false;
     custom_cell_format_fn := None |}.

(** ** Vocabulary of the statements *)

(** A value column that holds numbers only. *)
Definition numeric (df : dataframe) : Prop :=
  forall r, In r df -> exists x, at_cell_key r = VNum x.


Definition cells_floats (vs : list cell) : list float :=
  flat_map (fun v => match v with VNum x => [x] | VStr _ => [] end) vs.

(** The numbers in the value field of some records. *)
Definition floats_of (rs : list record) : list float :=
  cells_floats (map at_cell_key rs).

(** The records of a frame that match a (row group, column group) pair. *)
Definition matching (rk ck : cell) (df : dataframe) : dataframe :=
  filter (fun r => key_eqb (at_row_key r) rk && key_eqb (at_col_key r) ck) df.

(** The cells of a named column, and the numbers among them. *)
Definition named_cells (name : string) (rs : list record) : list cell :=
  flat_map (fun r => match dict_find (others r) name with
                     | Some v => [v]
                     | None => []
                     end) rs.

Definition err_floats (name : string) (rs : list record) : list float :=
  cells_floats (named_cells name rs).

(** The records of one row group. *)
Definition row_group (rk : cell) (df : dataframe) : list record :=
  filter (fun r => key_eqb (at_row_key r) rk) df.

(** [grouped[err_key].mean()] of a row group: one mean per column group. *)
Definition err_means (name : string) (row_df : list record) : series :=
  map (fun cg => (fst cg, mean (err_floats name (snd cg))))
      (groupby at_col_key row_df).

(** What the dispersion is when the error column is not selected: the
    result of [compute_err_fn] when there is one, else the scaled standard
    deviations. *)
Definition fallback_err (a : args) (row_df : list record) : series :=
  match compute_err_fn a with
  | Some f => f (map (fun cg => (fst cg, floats_of (snd cg))) (groupby at_col_key row_df))
  | None =>
      map (fun cg => (fst cg, (std (floats_of (snd cg)) * error_scaling a)%float))
          (groupby at_col_key row_df)
  end.

(** ** Vocabulary of the statistics

    The arithmetic mean and the sample standard deviation, as the words
    are understood: over the real numbers. *)








(** ** Vocabulary of binary64 *)

Definition sf_nan (v : spec_float) : bool :=
  match v with S754_nan => true | _ => false end.

(** ** Vocabulary of the row loop *)

(** The line printed at line 155: [print] joins its two arguments with a
    space. *)
Definition diagnostic (row_k : string) : string := "Could not find  " ++ row_k.

(** The row appended at lines 156-157. *)
Definition blank_row (a : args) (row_k : string) : string :=
  join col_sep (List.app (row_label a row_k) (map (fun _ => "") (col_order a))).

(** A row key that is not the break marker and has no aggregated data. *)
Definition absent (rows : list (cell * (series * series))) (row_k : string) : bool :=
  negb (String.eqb row_k "hline") &&
  match lookup row_k rows with
  | None => true
  | Some _ => false
  end.

(** The text of a data row that is the [n]-th of its section, counting
    from one (lines 212-215). *)
Definition data_row (a : args) (n : nat) (row_k : string) (cells : list string)
  : string :=
  let row_str := join col_sep (List.app (row_label a row_k) cells) in
  if Nat.eqb (n mod 2) 0 && alternating_color_rows a
  then "\rowcolor{Gray} " ++ row_str else row_str.

(** What follows a row that is not the last one (lines 265-268). *)
Definition separator (row_line : string) : string :=
  if contains "hline" row_line then nl else row_sep.

(** A text without ["%"] and ["_"], which [clean_text] leaves in place. *)
Definition plain (sub : string) : bool :=
  forallb (fun c => negb (Ascii.eqb c "%"%char) && negb (Ascii.eqb c "_"%char))
          (list_ascii_of_string sub).

(** The rows before a given one, each with its separator. *)
Fixpoint with_separators (row_lines : list string) : string :=
  match row_lines with
  | [] => ""
  | row_line :: rest => row_line ++ separator row_line ++ with_separators rest
  end.

Definition on_lines (f : list string -> list string) (m : io (list string))
  : io (list string) :=
  (fst m, match snd m with Ok lines => Ok (f lines) | Raise e => Raise e end).

(** ** Concrete frames and arguments *)

Definition record_of (row col : string) (v : cell) (extra : dict cell) : record :=
  mkRecord (VStr row) (VStr col) v extra.

(** Defaults, two columns ["c1"; "c2"], rows ["r1"; "r2"];
    [MISSING_VALUE] is taken to be 0.2444. *)
Definition args0 : args := default_args 0.2444 ["c1"; "c2"] ["r1"; "r2"].

(** Copies of a bundle of arguments with one argument changed. *)
Definition with_err_key (a : args) (name : string) : args :=
  mkArgs (col_order a) (row_order a) (renames a) (error_scaling a)
    (n_decimals a) (missing_fill_value a) (error_fill_value a)
    (get_row_highlights a) (get_col_highlights a) (make_col_header a)
    (x_label a) (y_label a) (skip_toprule a) (include_err a) (write_to a)
    (Some name) (add_tabular a) (add_botrule a) (name_bold_fn a)
    (show_row_labels a) (show_col_labels a) (compute_err_fn a)
    (value_scaling a) (midrule_formatting a) (botrule_formatting a)
    (text_columns a) (alternating_color_rows a) (custom_cell_format_fn a).

Definition with_value_scaling (a : args) (k : scalar) : args :=
  mkArgs (col_order a) (row_order a) (renames a) (error_scaling a)
    (n_decimals a) (missing_fill_value a) (error_fill_value a)
    (get_row_highlights a) (get_col_highlights a) (make_col_header a)
    (x_label a) (y_label a) (skip_toprule a) (include_err a) (write_to a)
    (err_key a) (add_tabular a) (add_botrule a) (name_bold_fn a)
    (show_row_labels a) (show_col_labels a) (compute_err_fn a) k
    (midrule_formatting a) (botrule_formatting a) (text_columns a)
    (alternating_color_rows a) (custom_cell_format_fn a).

Definition with_row_order (a : args) (order : list string) : args :=
  mkArgs (col_order a) order (renames a) (error_scaling a) (n_decimals a)
    (missing_fill_value a) (error_fill_value a) (get_row_highlights a)
    (get_col_highlights a) (make_col_header a) (x_label a) (y_label a)
    (skip_toprule a) (include_err a) (write_to a) (err_key a) (add_tabular a)
    (add_botrule a) (name_bold_fn a) (show_row_labels a) (show_col_labels a)
    (compute_err_fn a) (value_scaling a) (midrule_formatting a)
    (botrule_formatting a) (text_columns a) (alternating_color_rows a)
    (custom_cell_format_fn a).

Definition with_alternating_color_rows (a : args) (b : bool) : args :=
  mkArgs (col_order a) (row_order a) (renames a) (error_scaling a)
    (n_decimals a) (missing_fill_value a) (error_fill_value a)
    (get_row_highlights a) (get_col_highlights a) (make_col_header a)
    (x_label a) (y_label a) (skip_toprule a) (include_err a) (write_to a)
    (err_key a) (add_tabular a) (add_botrule a) (name_bold_fn a)
    (show_row_labels a) (show_col_labels a) (compute_err_fn a)
    (value_scaling a) (midrule_formatting a) (botrule_formatting a)
    (text_columns a) b (custom_cell_format_fn a).

Definition with_compute_err_fn (a : args) (f : list (cell * list float) -> series) : args :=
  mkArgs (col_order a) (row_order a) (renames a) (error_scaling a)
    (n_decimals a) (missing_fill_value a) (error_fill_value a)
    (get_row_highlights a) (get_col_highlights a) (make_col_header a)
    (x_label a) (y_label a) (skip_toprule a) (include_err a) (write_to a)
    (err_key a) (add_tabular a) (add_botrule a) (name_bold_fn a)
    (show_row_labels a) (show_col_labels a) (Some f) (value_scaling a)
    (midrule_formatting a) (botrule_formatting a) (text_columns a)
    (alternating_color_rows a) (custom_cell_format_fn a).

(** A clean numeric frame with two row groups. *)
Definition df_clean : dataframe :=
  [ record_of "r1" "c1" (VNum 1) [];
    record_of "r1" "c1" (VNum 2) [];
    record_of "r1" "c1" (VNum 3) [];
    record_of "r1" "c2" (VNum 0.5) [];
    record_of "r2" "c1" (VNum 4) [];
    record_of "r2" "c1" (VNum 8) [] ].

(** An error column holding an infinity of each sign in one group. *)
Definition df_inf : dataframe :=
  [ record_of "r1" "c1" (VNum 1) [("err", VNum infinity)];
    record_of "r1" "c1" (VNum 2) [("err", VNum neg_infinity)];
    record_of "r1" "c1" (VNum 3) [("err", VNum 1)] ].

(** An error column with one NaN next to numbers in a group of ["r1"], and
    a group of ["r2"] with nothing but NaN. *)
Definition df_nan : dataframe :=
  [ record_of "r1" "c1" (VNum 0) [("err", VNum nan)];
    record_of "r1" "c1" (VNum 2) [("err", VNum 1)];
    record_of "r1" "c1" (VNum 4) [("err", VNum 1)];
    record_of "r2" "c1" (VNum 1) [("err", VNum nan)];
    record_of "r2" "c1" (VNum 2) [("err", VNum nan)];
    record_of "r2" "c1" (VNum 3) [("err", VNum nan)];
    record_of "r2" "c2" (VNum 5) [("err", VNum 0.5)] ].

(** An error column of plain numbers. *)
Definition df_err : dataframe :=
  [ record_of "r1" "c1" (VNum 1) [("err", VNum 0.25)];
    record_of "r1" "c1" (VNum 2) [("err", VNum 0.25)];
    record_of "r1" "c1" (VNum 3) [("err", VNum 0.25)] ].

(** One record whose value is a sentinel marker. *)
Definition df_missing : dataframe := [ record_of "r1" "c1" (VStr "missing") [] ].
Definition df_error : dataframe := [ record_of "r1" "c1" (VStr "error") [] ].

(** The dictionary [rows] of a frame with the three values 1, 2, 3 in one
    cell. *)
Definition rows_123 : list (cell * (series * series)) :=
  [ (VStr "r1", ([(VStr "c1", 2%float)], [(VStr "c1", 1%float)])) ].

(** ** Vocabulary of the further properties *)

(** Every ["%"] of a text comes right after a backslash; the flag says
    whether the character before the text is one. *)
Fixpoint escaped (after_backslash : bool) (s : string) : bool :=
  match s with
  | EmptyString => true
  | String c s' =>
      (if Ascii.eqb c "%"%char then after_backslash else true)
      && escaped (Ascii.eqb c "\"%char) s'
  end.

(** The number of occurrences of a character. *)
Fixpoint count_char (c : ascii) (s : string) : nat :=
  match s with
  | EmptyString => 0
  | String d s' => (if Ascii.eqb d c then 1 else 0) + count_char c s'
  end.

(** [n_columns] of line 218-220. *)
Definition n_columns (a : args) : nat :=
  List.length (col_order a) + (if show_row_labels a then 1 else 0).


(** A cell that holds one of the two markers. *)
Definition is_marker (v : cell) : bool :=
  match v with
  | VStr s => String.eqb s "missing" || String.eqb s "error"
  | VNum _ => false
  end.

(** No marker is left in a record, in whatever column. *)
Definition marker_free (r : record) : bool :=
  negb (is_marker (at_row_key r)) && negb (is_marker (at_col_key r))
  && negb (is_marker (at_cell_key r))
  && forallb (fun kv => negb (is_marker (snd kv))) (others r).

(** Line 208: what bolding does to the text of a cell. *)
Definition bold_if (b : bool) (txt : string) : string :=
  if b then "\textbf{ " ++ txt ++ " }" else txt.

(** What an entry of [row_order] becomes when no row has data. *)
Definition empty_line (a : args) (row_k : string) : string :=
  if String.eqb row_k "hline" then "\hline" else blank_row a row_k.

Definition with_y_label (a : args) (label : string) : args :=
  mkArgs (col_order a) (row_order a) (renames a) (error_scaling a)
    (n_decimals a) (missing_fill_value a) (error_fill_value a)
    (get_row_highlights a) (get_col_highlights a) (make_col_header a)
    (x_label a) label (skip_toprule a) (include_err a) (write_to a)
    (err_key a) (add_tabular a) (add_botrule a) (name_bold_fn a)
    (show_row_labels a) (show_col_labels a) (compute_err_fn a)
    (value_scaling a) (midrule_formatting a) (botrule_formatting a)
    (text_columns a) (alternating_color_rows a) (custom_cell_format_fn a).

Definition with_get_row_highlights (a : args)
    (f : option (string -> series -> selection)) : args :=
  mkArgs (col_order a) (row_order a) (renames a) (error_scaling a)
    (n_decimals a) (missing_fill_value a) (error_fill_value a)
    f (get_col_highlights a) (make_col_header a)
    (x_label a) (y_label a) (skip_toprule a) (include_err a) (write_to a)
    (err_key a) (add_tabular a) (add_botrule a) (name_bold_fn a)
    (show_row_labels a) (show_col_labels a) (compute_err_fn a)
    (value_scaling a) (midrule_formatting a) (botrule_formatting a)
    (text_columns a) (alternating_color_rows a) (custom_cell_format_fn a).

Definition with_get_col_highlights (a : args)
    (g : option (string -> series -> selection)) : args :=
  mkArgs (col_order a) (row_order a) (renames a) (error_scaling a)
    (n_decimals a) (missing_fill_value a) (error_fill_value a)
    (get_row_highlights a) g (make_col_header a)
    (x_label a) (y_label a) (skip_toprule a) (include_err a) (write_to a)
    (err_key a) (add_tabular a) (add_botrule a) (name_bold_fn a)
    (show_row_labels a) (show_col_labels a) (compute_err_fn a)
    (value_scaling a) (midrule_formatting a) (botrule_formatting a)
    (text_columns a) (alternating_color_rows a) (custom_cell_format_fn a).

(** A callback that picks the rows whose value in the column is 6. *)
Definition pick_six (col_k : string) (col_values : series) : selection :=
  SelList (flat_map (fun kv => match kv with
                               | (VStr row, v) =>
                                   if PrimFloat.eqb v 6 then [row] else []
                               | (VNum _, _) => []
                               end) col_values).

(** A callback that picks every column. *)
Definition pick_all_columns (row_k : string) (row_y : series) : selection :=
  SelList (flat_map (fun kv => match fst kv with
                               | VStr col => [col]
                               | VNum _ => []
                               end) row_y).

(** * Properties *)

(** ** A run *)

Example format_fixed_ties :
  format_fixed 2 0.625 = "0.62" /\ format_fixed 0 1.5 = "2" /\
  format_fixed 2 (-0.001) = "-0.00" /\ format_fixed 2 nan = "nan".
Proof. repeat split; vm_compute; reflexivity. Qed.

Example clean_text_example : clean_text "50%_done" = "50\% done".
Proof. reflexivity. Qed.

(** The reductions on a few groups: the compensated sum gives
    0.19999999999999998 for 0.1, 0.2, 0.3 (the plain sum over count is
    0.20000000000000004) and exactly 0.3444 for nine times 0.3444; the
    running update gives the deviation 0 for two equal values however
    large; an overflowing sum of finite values has a NaN mean; a NaN entry
    is passed over, and one value has no standard deviation. *)
Example grouped_reductions_in_binary64 :
  mean [0.1; 0.2; 0.3]%float = 0.19999999999999998%float /\
  ((0 + 0.1 + 0.2 + 0.3) / 3)%float = 0.20000000000000004%float /\
  std [0.1; 0.2; 0.3]%float = 0.09999999999999998%float /\
  mean (repeat 0.3444%float 9) = 0.3444%float /\
  std [1e308; 1e308]%float = 0%float /\
  is_nan (mean [1e308; 1e308; 1]%float) = true /\
  mean [infinity; 1%float] = infinity /\
  is_nan (mean [infinity; neg_infinity]) = true /\
  mean [nan; 1%float] = 1%float /\
  is_nan (std [5%float]) = true.
Proof. repeat split; vm_compute; reflexivity. Qed.

(** The table of [df_clean] under the defaults: means and standard
    deviations of (r1, c1) = 1, 2, 3 and (r2, c1) = 4, 8; the single value
    of (r1, c2) has no standard deviation; (r2, c2) has no record. *)
Example plot_table_df_clean :
  returned (plot_table args0 df_clean) =
  Ok ("\begin{tabular}{ccc}" ++ nl ++
      "\toprule" ++ nl ++
      " & \textbf{c1} & \textbf{c2} \\" ++ nl ++
      "\midrule" ++ nl ++
      "\textbf{r1} &  2.00 {\scriptsize $ \pm$ 1.00  } &  0.50  \\" ++ nl ++
      "\textbf{r2} &  6.00 {\scriptsize $ \pm$ 2.83  } & -\bottomrule" ++ nl ++
      "\end{tabular}" ++ nl).
Proof. vm_compute. reflexivity. Qed.

(** ** Exceptions and lists *)

Lemma Ok_inj {A} (x y : A) : Ok x = Ok y -> x = y.
Proof. intros H. injection H as ->. reflexivity. Qed.

Lemma bind_Ok {A B} (m : result A) (k : A -> result B) (b : B) :
  Py.bind m k = Ok b -> exists x, m = Ok x /\ k x = Ok b.
Proof.
  destruct m as [x|e]; simpl; intros H; [eauto | discriminate].
Qed.

Lemma mapM_map {A B} (f : A -> result B) (g : A -> B) (xs : list A) :
  (forall x, In x xs -> f x = Ok (g x)) -> mapM f xs = Ok (map g xs).
Proof.
  induction xs as [|x xs IH]; intros H; simpl.
  - reflexivity.
  - rewrite (H x (or_introl eq_refl)). simpl.
    rewrite IH by (intros y Hy; apply H; right; exact Hy).
    reflexivity.
Qed.

Lemma mapM_Ok_inv {A B} (f : A -> result B) (xs : list A) (ys : list B) :
  mapM f xs = Ok ys -> Forall2 (fun x y => f x = Ok y) xs ys.
Proof.
  revert ys. induction xs as [|x xs IH]; simpl; intros ys H.
  - injection H as <-. constructor.
  - apply bind_Ok in H as (y & Hy & H).
    apply bind_Ok in H as (ys' & Hys & H).
    injection H as <-. constructor; auto.
Qed.

Lemma mapM_raise {A B} (f : A -> result B) (xs : list A) (x : A) (e : exn) :
  In x xs -> (forall y, In y xs -> f y = Raise e \/ exists z, f y = Ok z) ->
  f x = Raise e -> mapM f xs = Raise e.
Proof.
  induction xs as [|y xs IH]; simpl; intros Hin Hall Hx; [contradiction|].
  destruct (Hall y (or_introl eq_refl)) as [Hy | [z Hy]]; rewrite Hy; simpl.
  - reflexivity.
  - destruct Hin as [-> | Hin]; [congruence|].
    rewrite IH; auto.
Qed.

(** ** Binary64: where NaN can and cannot come from *)

Lemma is_nan_Prim2SF (x : float) : sf_nan (Prim2SF x) = is_nan x.
Proof.
  unfold Prim2SF. destruct (is_nan x); [reflexivity|].
  destruct (is_zero x); [reflexivity|].
  destruct (is_infinity x); [reflexivity|].
  destruct (Z.frexp x) as [r e].
  destruct (shr_fexp _ _ _ _ _) as [mrs e'].
  destruct (shr_m mrs); reflexivity.
Qed.

(** Rounding a nonnegative mantissa never yields NaN. *)
Lemma shr_1_nonneg mrs : (0 <= shr_m mrs)%Z -> (0 <= shr_m (shr_1 mrs))%Z.
Proof.
  destruct mrs as [m r s]. simpl. destruct m as [|p|p]; simpl; try lia.
  - destruct p; simpl; lia.
Qed.

Lemma iter_pos_shr_1_nonneg n mrs :
  (0 <= shr_m mrs)%Z -> (0 <= shr_m (iter_pos shr_1 n mrs))%Z.
Proof.
  revert mrs. induction n as [n IH|n IH|]; intros mrs H; simpl.
  - apply IH, IH, shr_1_nonneg, H.
  - apply IH, IH, H.
  - apply shr_1_nonneg, H.
Qed.

Lemma shr_fexp_nonneg pr em m e l :
  (0 <= m)%Z -> (0 <= shr_m (fst (shr_fexp pr em m e l)))%Z.
Proof.
  intros H. unfold shr_fexp, shr.
  assert (H0 : (0 <= shr_m (shr_record_of_loc m l))%Z).
  { destruct l as [|[]]; simpl; exact H. }
  destruct (_ - e)%Z; simpl; auto.
  apply iter_pos_shr_1_nonneg, H0.
Qed.

Lemma round_nearest_even_nonneg m l : (0 <= m)%Z -> (0 <= round_nearest_even m l)%Z.
Proof.
  intros H. destruct l as [|[]]; simpl; try lia.
  destruct (Z.even m); lia.
Qed.

Lemma binary_round_aux_not_nan pr em sx mx ex lx :
  (0 <= mx)%Z -> sf_nan (binary_round_aux pr em sx mx ex lx) = false.
Proof.
  intros H. unfold binary_round_aux.
  pose proof (shr_fexp_nonneg pr em mx ex lx H) as H1.
  destruct (shr_fexp pr em mx ex lx) as [mrs' e']. simpl in H1.
  pose proof (shr_fexp_nonneg pr em _ e' loc_Exact
                (round_nearest_even_nonneg _ (loc_of_shr_record mrs') H1)) as H2.
  destruct (shr_fexp pr em _ e' loc_Exact) as [mrs'' e'']. simpl in H2.
  destruct (shr_m mrs''); try reflexivity; [|lia].
  destruct (_ <=? _)%Z; reflexivity.
Qed.

Lemma SFdiv_not_nan pr em x sy my ey :
  sf_nan x = false -> sf_nan (SFdiv pr em x (S754_finite sy my ey)) = false.
Proof.
  destruct x as [sx|sx| |sx mx ex]; simpl; try discriminate; try reflexivity.
  intros _. unfold SFdiv_core_binary.
  set (m' := match _ with Z0 => _ | Zpos _ => _ | Zneg _ => _ end).
  assert (Hm : (0 <= m')%Z).
  { subst m'. destruct (_ - _ - _)%Z; try lia. apply Z.shiftl_nonneg. lia. }
  pose proof (Z_div_mod m' (Zpos my) eq_refl) as Hd.
  destruct (Z.div_eucl m' (Z.pos my)) as [q r].
  apply binary_round_aux_not_nan. nia.
Qed.

Lemma fexp_53 (d : Z) : (-1021 <= d)%Z -> fexp prec emax d = (d - 53)%Z.
Proof. unfold fexp, emin, prec, emax. lia. Qed.

Lemma binary_round_aux_exact sx mz ez :
  Zpos (digits2_pos mz) = 53%Z -> (-1074 <= ez <= 971)%Z ->
  binary_round_aux prec emax sx (Zpos mz) ez loc_Exact = S754_finite sx mz ez /\
  valid_binary (S754_finite sx mz ez) = true.
Proof.
  intros Hd He.
  assert (Hshift : (fexp prec emax (Zdigits2 (Zpos mz) + ez) - ez = 0)%Z).
  { simpl Zdigits2. rewrite Hd, fexp_53 by lia. lia. }
  split.
  - unfold binary_round_aux, shr_fexp. rewrite Hshift. simpl shr.
    cbn [shr_record_of_loc loc_of_shr_record round_nearest_even shr_m].
    rewrite Hshift. simpl shr. cbn [shr_m].
    unfold prec, emax. destruct (Z.leb_spec ez (1024 - 53)); [reflexivity | lia].
  - unfold valid_binary, SpecFloat.valid_binary, bounded, canonical_mantissa.
    simpl Zdigits2 in Hshift.
    apply andb_true_iff. split.
    + apply Z.eqb_eq. lia.
    + apply Z.leb_le. unfold prec, emax. lia.
Qed.

Lemma digits2_pos_iter_xO (p k : positive) :
  digits2_pos (Pos.iter xO p k) = (digits2_pos p + k)%positive.
Proof.
  induction k as [|k IH] using Pos.peano_ind.
  - simpl. lia.
  - rewrite Pos.iter_succ. simpl. rewrite IH. lia.
Qed.

Lemma digits2_pos_lower (p : positive) :
  (2 ^ (Zpos (digits2_pos p) - 1) <= Zpos p)%Z.
Proof.
  induction p as [p IH|p IH|]; simpl digits2_pos.
  - rewrite Pos2Z.inj_succ. replace (Z.succ (Zpos (digits2_pos p)) - 1)%Z
      with (Z.succ (Zpos (digits2_pos p) - 1)) by lia.
    rewrite Z.pow_succ_r by lia. lia.
  - rewrite Pos2Z.inj_succ. replace (Z.succ (Zpos (digits2_pos p)) - 1)%Z
      with (Z.succ (Zpos (digits2_pos p) - 1)) by lia.
    rewrite Z.pow_succ_r by lia. lia.
  - simpl. lia.
Qed.

Lemma digits2_pos_le_53 (p : positive) :
  (Zpos p < 2 ^ 53)%Z -> (Zpos (digits2_pos p) <= 53)%Z.
Proof.
  intros H. pose proof (digits2_pos_lower p) as Hl.
  destruct (Z.le_gt_cases (Zpos (digits2_pos p)) 53) as [|Hgt]; [assumption|].
  assert (2 ^ 53 <= 2 ^ (Zpos (digits2_pos p) - 1))%Z by (apply Z.pow_le_mono_r; lia).
  lia.
Qed.

Lemma binary_normalize_small (p : positive) :
  (Zpos p < 2 ^ 53)%Z ->
  exists m e,
    binary_normalize prec emax (Zpos p) 0 false = S754_finite false m e /\
    valid_binary (S754_finite false m e) = true.
Proof.
  intros Hp. pose proof (digits2_pos_le_53 p Hp) as Hd.
  unfold binary_normalize, binary_round.
  rewrite fexp_53 by lia. unfold shl_align.
  destruct (Zpos (digits2_pos p) + 0 - 53 - 0)%Z as [|k|k] eqn:Ek.
  - exists p, 0%Z. apply binary_round_aux_exact; lia.
  - lia.
  - exists (Pos.iter xO p k), (Zpos (digits2_pos p) + 0 - 53)%Z.
    apply binary_round_aux_exact.
    + rewrite digits2_pos_iter_xO. lia.
    + lia.
Qed.

Lemma float_of_nat_finite (n : nat) :
  (0 < Z.of_nat n < 2 ^ 53)%Z ->
  exists m e, Prim2SF (float_of_nat n) = S754_finite false m e.
Proof.
  intros Hn. unfold float_of_nat.
  destruct (Z.of_nat n) as [|p|p] eqn:E; try lia.
  destruct (binary_normalize_small p) as (m & e & Hb & Hv); [lia|].
  rewrite Hb. exists m, e. apply Prim2SF_SF2Prim. exact Hv.
Qed.

(** ** [groupby] *)

Lemma In_insert_key (k x : cell) (ks : list cell) :
  In x (insert_key k ks) <-> x = k \/ In x ks.
Proof.
  induction ks as [|k' ks IH]; simpl.
  - intuition.
  - destruct (key_leb k k'); simpl; rewrite ?IH; intuition.
Qed.

Lemma In_sort_keys (x : cell) (ks : list cell) :
  In x (sort_keys ks) <-> In x ks.
Proof.
  induction ks as [|k ks IH]; simpl.
  - tauto.
  - rewrite In_insert_key, IH. intuition.
Qed.

Lemma unique_keys_sound (ks seen : list cell) (k : cell) :
  In k (unique_keys seen ks) -> In k ks /\ key_eqb k k = true.
Proof.
  revert seen. induction ks as [|k0 ks IH]; simpl; intros seen H.
  - contradiction.
  - destruct (key_eqb k0 k0) eqn:E0; simpl in H.
    + destruct (existsb (key_eqb k0) seen); simpl in H.
      * apply IH in H. tauto.
      * destruct H as [<- | H]; [tauto|]. apply IH in H. tauto.
    + apply IH in H. tauto.
Qed.

Lemma unique_keys_cover (ks seen : list cell) (k : cell) :
  In k ks -> key_eqb k k = true ->
  (exists s, In s seen /\ key_eqb k s = true) \/
  (exists k', In k' (unique_keys seen ks) /\ key_eqb k k' = true).
Proof.
  revert seen. induction ks as [|k0 ks IH]; simpl; intros seen Hin Hk.
  - contradiction.
  - destruct Hin as [-> | Hin].
    + rewrite Hk. simpl.
      destruct (existsb (key_eqb k) seen) eqn:E; simpl.
      * left. apply existsb_exists in E. exact E.
      * right. exists k. simpl. auto.
    + destruct (key_eqb k0 k0 && negb (existsb (key_eqb k0) seen)).
      * destruct (IH (k0 :: seen) Hin Hk) as [(s & [<- | Hs] & E) | (k' & Hk' & E)].
        -- right. exists k0. simpl. auto.
        -- left. eauto.
        -- right. exists k'. simpl. auto.
      * apply IH; assumption.
Qed.

Section Groupby.

Context {A : Type} (key : A -> cell).

Lemma groupby_In (xs : list A) (k : cell) (g : list A) :
  In (k, g) (groupby key xs) ->
  g = filter (fun x => key_eqb (key x) k) xs /\
  In k (map key xs) /\ key_eqb k k = true.
Proof.
  unfold groupby. rewrite in_map_iff. intros (k' & E & Hin).
  injection E as -> <-.
  apply In_sort_keys, unique_keys_sound in Hin. tauto.
Qed.

Lemma groupby_cover (xs : list A) (x : A) :
  In x xs -> key_eqb (key x) (key x) = true ->
  exists k, In (k, filter (fun y => key_eqb (key y) k) xs) (groupby key xs) /\
            key_eqb (key x) k = true.
Proof.
  intros Hin Hk.
  destruct (unique_keys_cover (map key xs) [] (key x)) as [(s & [] & _) | (k & Hk' & E)];
    [apply in_map; exact Hin | exact Hk |].
  exists k. split; [|exact E].
  unfold groupby. apply in_map_iff. exists k. split; [reflexivity|].
  apply In_sort_keys. exact Hk'.
Qed.

(** A group is never empty. *)
Lemma groupby_nonempty (xs : list A) (k : cell) (g : list A) :
  In (k, g) (groupby key xs) -> exists x, In x g /\ key x = k.
Proof.
  intros H. apply groupby_In in H as (-> & Hin & Hk).
  apply in_map_iff in Hin as (x & <- & Hin).
  exists x. split; [|reflexivity].
  apply filter_In. auto.
Qed.

End Groupby.

Lemma lookup_In {V} (s : string) (d : list (cell * V)) (v : V) :
  lookup s d = Some v -> In (VStr s, v) d.
Proof.
  induction d as [|[k w] d IH]; simpl; [discriminate|].
  destruct k as [x|t]; simpl.
  - intros H. right. auto.
  - destruct (String.eqb_spec t s) as [->|_]; intros H.
    + injection H as ->. left. reflexivity.
    + right. auto.
Qed.

Lemma lookup_map {V W} (F : cell * V -> W) (s : string) (d : list (cell * V)) :
  lookup s (map (fun kv => (fst kv, F kv)) d) =
  match lookup s (map (fun kv => (fst kv, kv)) d) with
  | Some kv => Some (F kv)
  | None => None
  end.
Proof.
  induction d as [|[k w] d IH]; simpl; [reflexivity|].
  destruct (key_is s k); [reflexivity | exact IH].
Qed.

(** Looking a string key up in what was computed group by group. *)
Lemma lookup_groupby {A B} (key : A -> cell) (F : cell * list A -> B)
    (xs : list A) (s : string) (b : B) :
  lookup s (map (fun kg => (fst kg, F kg)) (groupby key xs)) = Some b ->
  b = F (VStr s, filter (fun x => key_eqb (key x) (VStr s)) xs).
Proof.
  rewrite lookup_map.
  destruct (lookup s (map (fun kv => (fst kv, kv)) (groupby key xs)))
    as [[k g]|] eqn:E; [|discriminate].
  intros H. injection H as <-.
  apply lookup_In, in_map_iff in E as ([k' g'] & E & Hg). simpl in E.
  injection E as -> <- <-.
  apply groupby_In in Hg as (-> & _). reflexivity.
Qed.

Lemma filter_filter {A} (p q : A -> bool) (xs : list A) :
  filter p (filter q xs) = filter (fun x => q x && p x) xs.
Proof.
  induction xs as [|x xs IH]; simpl; [reflexivity|].
  destruct (q x); simpl; [destruct (p x)|]; rewrite IH; reflexivity.
Qed.

(** ** The aggregation (lines 106-122) *)

Lemma Forall2_In_r {A B} (R : A -> B -> Prop) (xs : list A) (ys : list B) (y : B) :
  Forall2 R xs ys -> In y ys -> exists x, In x xs /\ R x y.
Proof.
  induction 1 as [|x y' xs ys HR _ IH]; simpl; intros Hin.
  - contradiction.
  - destruct Hin as [<- | Hin]; [eauto|].
    destruct (IH Hin) as (x' & Hx' & HR'). eauto.
Qed.

Lemma scale_column_numeric (df scaled : dataframe) (k : scalar) :
  numeric df -> scale_column df k = Ok scaled -> numeric scaled.
Proof.
  intros Hnum H r Hr.
  apply mapM_Ok_inv in H.
  destruct (Forall2_In_r _ _ _ _ H Hr) as (r0 & Hr0 & E).
  destruct (Hnum r0 Hr0) as (x & Hx). rewrite Hx in E.
  apply bind_Ok in E as (v & Hv & E). injection E as <-. simpl.
  destruct k as [z|y]; simpl in Hv.
  - apply bind_Ok in Hv as (y & _ & Hv). injection Hv as <-. eauto.
  - injection Hv as <-. eauto.
Qed.

Lemma replace_numeric (marker : string) (fill : float) (df : dataframe) :
  numeric df -> numeric (replace marker fill df).
Proof.
  intros Hnum r Hr. apply in_map_iff in Hr as (r0 & <- & Hr0).
  destruct (Hnum r0 Hr0) as (x & Hx). simpl. rewrite Hx. simpl. eauto.
Qed.

Lemma sanitize_numeric (a : args) (df : dataframe) :
  numeric df -> numeric (sanitize a df).
Proof.
  intros H. unfold sanitize. do 2 apply replace_numeric. exact H.
Qed.

Lemma as_float_numeric (rs : list record) :
  numeric rs -> mapM as_float (map at_cell_key rs) = Ok (floats_of rs).
Proof.
  unfold floats_of. induction rs as [|r rs IH]; intros H; simpl.
  - reflexivity.
  - destruct (H r (or_introl eq_refl)) as (x & ->). simpl.
    rewrite IH by (intros r' Hr'; apply H; right; exact Hr').
    reflexivity.
Qed.

Lemma numeric_group (key : record -> cell) (df : dataframe) (k : cell) (g : list record) :
  numeric df -> In (k, g) (groupby key df) -> numeric g.
Proof.
  intros Hnum Hin r Hr. apply groupby_In in Hin as (-> & _).
  apply filter_In in Hr as (Hr & _). auto.
Qed.

Lemma select_cell_column (row_df : list record) :
  select cell_column row_df =
  Ok (map (fun kg => (fst kg, map at_cell_key (snd kg))) (groupby at_col_key row_df)).
Proof.
  unfold select.
  rewrite (mapM_map cell_column at_cell_key) by reflexivity. simpl.
  apply mapM_map. intros kg _.
  rewrite (mapM_map cell_column at_cell_key) by reflexivity. reflexivity.
Qed.

Lemma reduce_numeric (f : list float -> float) (row_df : list record) :
  numeric row_df ->
  reduce f (map (fun kg => (fst kg, map at_cell_key (snd kg))) (groupby at_col_key row_df)) =
  Ok (map (fun kg => (fst kg, f (floats_of (snd kg)))) (groupby at_col_key row_df)).
Proof.
  intros Hnum. unfold reduce.
  rewrite <- (map_map (fun kg : cell * list record => (fst kg, map at_cell_key (snd kg)))
                      (fun kv : cell * list cell => (fst kv, f (cells_floats (snd kv))))).
  apply mapM_map. intros kv Hkv.
  apply in_map_iff in Hkv as ([k g] & <- & Hin). simpl.
  rewrite as_float_numeric by (eapply numeric_group; eauto).
  reflexivity.
Qed.

(** Without [err_key] and [compute_err_fn], a row group of numbers has the
    per-column means and scaled standard deviations. *)
Lemma row_stats_numeric (a : args) (row_df : list record) :
  numeric row_df -> err_key a = None -> compute_err_fn a = None ->
  row_stats a row_df =
  Ok (map (fun kg => (fst kg, mean (floats_of (snd kg)))) (groupby at_col_key row_df),
      map (fun kg => (fst kg, (std (floats_of (snd kg)) * error_scaling a)%float))
          (groupby at_col_key row_df)).
Proof.
  intros Hnum He Hc. unfold row_stats.
  rewrite select_cell_column. simpl.
  rewrite !reduce_numeric by exact Hnum. simpl.
  rewrite He, Hc. simpl. rewrite map_map. reflexivity.
Qed.

Lemma aggregate_numeric (a : args) (df : dataframe) :
  numeric df -> err_key a = None -> compute_err_fn a = None ->
  aggregate a df =
  Ok (map (fun kg =>
             (fst kg,
              (map (fun cg => (fst cg, mean (floats_of (snd cg))))
                   (groupby at_col_key (snd kg)),
               map (fun cg => (fst cg, (std (floats_of (snd cg)) * error_scaling a)%float))
                   (groupby at_col_key (snd kg)))))
          (groupby at_row_key df)).
Proof.
  intros Hnum He Hc. unfold aggregate. apply mapM_map.
  intros [k g] Hin. simpl.
  rewrite row_stats_numeric; try assumption; [reflexivity|].
  eapply numeric_group; eauto.
Qed.

Lemma floats_of_length (rs : list record) :
  numeric rs -> List.length (floats_of rs) = List.length rs.
Proof.
  unfold floats_of. induction rs as [|r rs IH]; intros H; simpl; [reflexivity|].
  destruct (H r (or_introl eq_refl)) as (x & ->). simpl.
  rewrite IH by (intros r' Hr'; apply H; right; exact Hr'). reflexivity.
Qed.

(** ** The reductions in exact arithmetic *)








(** ** The reductions in binary64 skip NaN entries *)





(** ** The error column (lines 112-120) *)

Lemma mapM_Ok_map {A B} (f : A -> result B) (g : A -> B) (xs : list A) (ys : list B) :
  mapM f xs = Ok ys ->
  (forall x y, In x xs -> f x = Ok y -> y = g x) ->
  ys = map g xs.
Proof.
  revert ys. induction xs as [|x xs IH]; simpl; intros ys H Hg.
  - injection H as <-. reflexivity.
  - apply bind_Ok in H as (y & Hy & H).
    apply bind_Ok in H as (ys' & Hys & H).
    injection H as <-.
    rewrite (Hg x y (or_introl eq_refl) Hy).
    rewrite (IH ys' Hys) by (intros; eapply Hg; eauto).
    reflexivity.
Qed.

Lemma as_float_Ok (vs : list cell) (xs : list float) :
  mapM as_float vs = Ok xs -> xs = cells_floats vs.
Proof.
  revert xs. induction vs as [|v vs IH]; simpl; intros xs H.
  - injection H as <-. reflexivity.
  - apply bind_Ok in H as (x & Hx & H).
    apply bind_Ok in H as (xs' & Hxs & H).
    injection H as <-.
    destruct v; simpl in Hx; [|discriminate]. injection Hx as ->.
    simpl. rewrite (IH xs' Hxs). reflexivity.
Qed.

Lemma named_column_Ok (name : string) (rs : list record) (vs : list cell) :
  mapM (named_column name) rs = Ok vs -> vs = named_cells name rs.
Proof.
  revert vs. induction rs as [|r rs IH]; simpl; intros vs H.
  - injection H as <-. reflexivity.
  - apply bind_Ok in H as (v & Hv & H).
    apply bind_Ok in H as (vs' & Hvs & H).
    injection H as <-.
    unfold named_column in Hv.
    destruct (dict_find (others r) name); [|discriminate].
    injection Hv as ->. simpl. rewrite (IH vs' Hvs). reflexivity.
Qed.

Lemma reduce_Ok (f : list float -> float) (grouped : list (cell * list cell)) (s : series) :
  reduce f grouped = Ok s ->
  s = map (fun kv => (fst kv, f (cells_floats (snd kv)))) grouped.
Proof.
  intros H. eapply mapM_Ok_map; [exact H|].
  intros kv y _ E. apply bind_Ok in E as (xs & Hxs & E).
  injection E as <-. rewrite (as_float_Ok _ _ Hxs). reflexivity.
Qed.

Lemma select_named_Ok (name : string) (row_df : list record)
    (errs : list (cell * list cell)) :
  select (named_column name) row_df = Ok errs ->
  errs = map (fun cg => (fst cg, named_cells name (snd cg))) (groupby at_col_key row_df).
Proof.
  unfold select. intros H. apply bind_Ok in H as (_ & _ & H).
  eapply mapM_Ok_map; [exact H|].
  intros cg y _ E. apply bind_Ok in E as (vs & Hvs & E).
  injection E as <-. rewrite (named_column_Ok _ _ _ Hvs). reflexivity.
Qed.

(** What [rows[row_k]] holds when [err_key] names a column. *)
Lemma row_stats_err_key (a : args) (name : string) (row_df : list record)
    (avg sd : series) :
  err_key a = Some name ->
  row_stats a row_df = Ok (avg, sd) ->
  avg = map (fun cg => (fst cg, mean (floats_of (snd cg)))) (groupby at_col_key row_df) /\
  sd = if hasnans (err_means name row_df)
       then fallback_err a row_df
       else err_means name row_df.
Proof.
  intros He H. unfold row_stats in H.
  rewrite select_cell_column in H. simpl in H.
  apply bind_Ok in H as (avg' & Havg & H).
  apply bind_Ok in H as (sd' & Hsd & H).
  rewrite He in H.
  apply bind_Ok in H as ([s sel] & Hch & H).
  apply bind_Ok in Hch as (errs & Herrs & Hch).
  apply bind_Ok in Hch as (err & Herr & Hch).
  apply reduce_Ok in Havg, Hsd, Herr. rewrite map_map in Havg, Hsd. simpl in Havg, Hsd.
  apply select_named_Ok in Herrs. subst errs.
  rewrite map_map in Herr. simpl in Herr.
  subst err.
  unfold fallback_err, err_means, err_floats. revert Hch.
  destruct (hasnans _); intros Hch; injection Hch as <- <-.
  - destruct (compute_err_fn a) as [f|].
    + apply bind_Ok in H as (values & Hvalues & H).
      injection H as <- <-. split; [exact Havg|].
      f_equal.
      rewrite (mapM_Ok_map _ (fun kv => (fst kv, cells_floats (snd kv))) _ _ Hvalues).
      * rewrite map_map. reflexivity.
      * intros kv y _ E. apply bind_Ok in E as (xs & Hxs & E).
        injection E as <-. rewrite (as_float_Ok _ _ Hxs). reflexivity.
    + injection H as <- <-. split; [exact Havg|].
      subst sd'. rewrite map_map. reflexivity.
  - destruct (compute_err_fn a); injection H as <- <-; auto.
Qed.

Lemma aggregate_In (a : args) (df : dataframe) (rows : list (cell * (series * series)))
    (rk : cell) (st : series * series) :
  aggregate a df = Ok rows -> In (rk, st) rows ->
  row_stats a (row_group rk df) = Ok st /\ In (rk, row_group rk df) (groupby at_row_key df).
Proof.
  intros H Hin. apply mapM_Ok_inv in H.
  destruct (Forall2_In_r _ _ _ _ H Hin) as ([k g] & Hg & E). simpl in E.
  apply bind_Ok in E as (st' & Hst & E). injection E as -> ->.
  pose proof Hg as Hg'. apply groupby_In in Hg' as (-> & _). auto.
Qed.

Lemma hasnans_err_means (name : string) (row_df : list record) :
  hasnans (err_means name row_df) =
  existsb (fun cg => is_nan (mean (err_floats name (snd cg)))) (groupby at_col_key row_df).
Proof.
  unfold hasnans, err_means. induction (groupby at_col_key row_df) as [|cg l IH]; simpl.
  - reflexivity.
  - rewrite IH. reflexivity.
Qed.

(** The mean of a group without a single number is NaN. *)
Lemma mean_all_nan (xs : list float) :
  forallb is_nan xs = true -> is_nan (mean xs) = true.
Proof.
  intros H. unfold mean, group_mean.
  assert (E : forall st, fold_left (mean_step binary64) xs st = st).
  { induction xs as [|x xs IH]; intros st; [reflexivity|].
    simpl in H. apply andb_true_iff in H as (Hx & Hxs).
    cbn [fold_left]. unfold mean_step at 2. destruct st as [[sumx c] nobs].
    cbn [is_na binary64]. unfold is_nan in Hx. rewrite Hx. apply IH, Hxs. }
  rewrite E. reflexivity.
Qed.

(** C10 (amended).  With [err_key] naming a column, the choice of the
    dispersion is made for each row group from that group's records alone,
    by the test of line 115 on the means of the error column over the
    group's column groups: when one of these means is NaN, the group's
    dispersion is what [compute_err_fn] returns, or without one the
    standard deviations times [error_scaling]; when none is NaN, it is
    these means.  A column group whose error values are all NaN has a NaN
    mean.  What the other row groups hold plays no part: a frame with the
    same records under the row key gives the group the same pair. *)
Theorem err_key_decided_per_row_group :
  forall (a : args) (name : string) (df : dataframe)
         (rows : list (cell * (series * series))) (rk : cell) (avg sd : series),
    err_key a = Some name ->
    aggregate a df = Ok rows ->
    In (rk, (avg, sd)) rows ->
    let row_df := row_group rk df in
    let nan_mean :=
      existsb (fun cg => is_nan (mean (err_floats name (snd cg))))
              (groupby at_col_key row_df) in
    (nan_mean = true ->
     sd = match compute_err_fn a with
          | Some f =>
              f (map (fun cg => (fst cg, floats_of (snd cg)))
                     (groupby at_col_key row_df))
          | None =>
              map (fun cg => (fst cg, (std (floats_of (snd cg)) * error_scaling a)%float))
                  (groupby at_col_key row_df)
          end) /\
    (nan_mean = false -> sd = err_means name row_df) /\
    ((exists cg, In cg (groupby at_col_key row_df) /\
                 forallb is_nan (err_floats name (snd cg)) = true) ->
     nan_mean = true) /\
    (forall (df' : dataframe) (rows' : list (cell * (series * series)))
            (avg' sd' : series),
       aggregate a df' = Ok rows' ->
       In (rk, (avg', sd')) rows' ->
       row_group rk df' = row_df ->
       avg' = avg /\ sd' = sd).
Proof.
  intros a name df rows rk avg sd He Hagg Hin row_df nan_mean.
  destruct (aggregate_In _ _ _ _ _ Hagg Hin) as (Hst & _).
  destruct (row_stats_err_key _ _ _ _ _ He Hst) as (_ & Hsd).
  rewrite hasnans_err_means in Hsd. fold row_df nan_mean in Hsd.
  split; [|split; [|split]].
  - intros E. rewrite E in Hsd. exact Hsd.
  - intros E. rewrite E in Hsd. exact Hsd.
  - intros (cg & Hcg & Hall). apply existsb_exists. exists cg.
    split; [exact Hcg | apply mean_all_nan; exact Hall].
  - intros df' rows' avg' sd' Hagg' Hin' Hsame.
    destruct (aggregate_In _ _ _ _ _ Hagg' Hin') as (Hst' & _).
    rewrite Hsame in Hst'. fold row_df in Hst. rewrite Hst in Hst'.
    injection Hst' as -> ->. split; reflexivity.
Qed.

(** The error column is selected as soon as its means hold no NaN. *)
Lemma err_key_selected (a : args) (name : string) (df : dataframe)
    (rows : list (cell * (series * series))) (row_k : string) (avg sd : series) :
  err_key a = Some name ->
  aggregate a df = Ok rows ->
  lookup row_k rows = Some (avg, sd) ->
  hasnans (err_means name (row_group (VStr row_k) df)) = false ->
  sd = err_means name (row_group (VStr row_k) df) /\
  forall (col_k : string) (val : float),
    lookup col_k avg = Some val ->
    lookup col_k sd =
    Some (mean (err_floats name (matching (VStr row_k) (VStr col_k) df))).
Proof.
  intros He Hagg Hrow Hnan.
  apply lookup_In in Hrow.
  destruct (aggregate_In _ _ _ _ _ Hagg Hrow) as (Hst & _).
  destruct (row_stats_err_key _ _ _ _ _ He Hst) as (Havg & Hsd).
  rewrite Hnan in Hsd. split; [exact Hsd|].
  intros col_k val Hval. subst avg sd. unfold err_means.
  rewrite (lookup_map (fun cg => mean (floats_of (snd cg)))) in Hval.
  rewrite (lookup_map (fun cg => mean (err_floats name (snd cg)))).
  destruct (lookup col_k (map (fun kv => (fst kv, kv)) _)) as [[k g]|] eqn:E;
    [|discriminate].
  apply lookup_In, in_map_iff in E as ([k' g'] & E & Hg). simpl in E.
  injection E as -> <- <-.
  apply groupby_In in Hg as (-> & _). simpl.
  unfold row_group. rewrite filter_filter. reflexivity.
Qed.

Lemma dict_find_map {V W} (f : V -> W) (d : dict V) (k : string) :
  dict_find (map (fun kv => (fst kv, f (snd kv))) d) k =
  option_map f (dict_find d k).
Proof.
  induction d as [|[k' v] d IH]; simpl; [reflexivity|].
  destruct (String.eqb k' k); [reflexivity | exact IH].
Qed.

(** The mean of a single number is a number (an infinity included). *)
Lemma mean_single (x : float) : is_nan x = false -> is_nan (mean [x]) = false.
Proof.
  intros Hx. unfold mean, group_mean. cbn [fold_left mean_step is_na binary64].
  assert (Hx' : negb (PrimFloat.eqb x x) = false) by exact Hx.
  rewrite Hx'. cbn [div of_count add sub zero binary64].
  rewrite <- is_nan_Prim2SF, div_spec.
  destruct (float_of_nat_finite 1) as (m & e & ->); [simpl; lia|].
  apply SFdiv_not_nan. rewrite add_spec, sub_spec.
  rewrite <- is_nan_Prim2SF in Hx.
  change (Prim2SF 0) with (S754_zero false).
  destruct (Prim2SF x) as [sx|sx| |sx mx ex]; try discriminate;
    try reflexivity; destruct sx; reflexivity.
Qed.

(** C6 (amended).  When [err_key] names a column and, within a row group,
    none of the means of that column over the column groups is NaN (the
    test of line 115), the dispersion of every cell of the row group is
    the mean of that column over the records matching the cell's (row,
    column) pair, with or without [compute_err_fn].  The test passes in
    particular when every cell of the row group has one error value and
    that value is not NaN. *)
Theorem err_key_overrides_std_and_err_fn :
  forall (a : args) (name : string) (df : dataframe)
         (rows : list (cell * (series * series))) (row_k : string) (avg sd : series),
    err_key a = Some name ->
    aggregate a df = Ok rows ->
    lookup row_k rows = Some (avg, sd) ->
    let row_df := row_group (VStr row_k) df in
    (hasnans (err_means name row_df) = false ->
     sd = err_means name row_df /\
     hasnans sd = false /\
     forall (col_k : string) (val : float),
       lookup col_k avg = Some val ->
       lookup col_k sd =
       Some (mean (err_floats name (matching (VStr row_k) (VStr col_k) df)))) /\
    ((forall cg, In cg (groupby at_col_key row_df) ->
        exists x, err_floats name (snd cg) = [x] /\ is_nan x = false) ->
     hasnans (err_means name row_df) = false).
Proof.
  intros a name df rows row_k avg sd He Hagg Hrow row_df. split.
  - intros Hnan.
    destruct (err_key_selected a name df rows row_k avg sd He Hagg Hrow Hnan)
      as (Hsd & Hcell).
    split; [exact Hsd|]. split; [rewrite Hsd; exact Hnan | exact Hcell].
  - intros Hone. rewrite hasnans_err_means.
    destruct (existsb _ _) eqn:E; [|reflexivity].
    apply existsb_exists in E as (cg & Hcg & Hnan).
    destruct (Hone cg Hcg) as (x & Hx & Hnum). rewrite Hx in Hnan.
    rewrite (mean_single x Hnum) in Hnan. discriminate.
Qed.

(** ** The loop over [row_order] (lines 140-216) *)

Lemma iobind_ret {A B} (m : io A) (f : A -> B) :
  Py.iobind m (fun x => ret (f x)) =
  (fst m, match snd m with Ok x => Ok (f x) | Raise e => Raise e end).
Proof.
  destruct m as [out [x|e]]; simpl; [rewrite app_nil_r|]; reflexivity.
Qed.

Lemma render_rows_hline (a : args) (rows : list (cell * (series * series)))
    (i : nat) (rest : list string) :
  render_rows a rows i ("hline" :: rest) =
  on_lines (cons "\hline") (render_rows a rows 0 rest).
Proof.
  simpl. apply iobind_ret.
Qed.

Lemma render_rows_absent (a : args) (rows : list (cell * (series * series)))
    (i : nat) (row_k : string) (rest : list string) :
  absent rows row_k = true ->
  render_rows a rows i (row_k :: rest) =
  (diagnostic row_k :: fst (render_rows a rows i rest),
   match snd (render_rows a rows i rest) with
   | Ok lines => Ok (blank_row a row_k :: lines)
   | Raise e => Raise e
   end).
Proof.
  unfold absent. intros H. apply andb_true_iff in H as (Hk & Hl).
  simpl. destruct (row_k =? "hline")%string; [discriminate|].
  destruct (lookup row_k rows); [discriminate|].
  unfold print. cbn [Py.iobind]. rewrite iobind_ret.
  destruct (render_rows a rows i rest) as [out r]. reflexivity.
Qed.

Lemma render_rows_present (a : args) (rows : list (cell * (series * series)))
    (i : nat) (row_k : string) (rest : list string) (row_y row_std : series) :
  String.eqb row_k "hline" = false ->
  lookup row_k rows = Some (row_y, row_std) ->
  render_rows a rows i (row_k :: rest) =
  match highlights a rows row_k row_y with
  | Raise e => ([], Raise e)
  | Ok sel_cols =>
      match mapM (render_cell a row_k row_y row_std sel_cols) (col_order a) with
      | Raise e => ([], Raise e)
      | Ok cells =>
          on_lines (cons (data_row a (S i) row_k cells))
                   (render_rows a rows (S i) rest)
      end
  end.
Proof.
  intros Hk Hl. simpl. rewrite Hk, Hl.
  destruct (highlights a rows row_k row_y) as [sel|e]; [|reflexivity].
  cbn [lift Py.iobind].
  destruct (mapM _ (col_order a)) as [cells|e].
  - cbn [Py.iobind]. rewrite iobind_ret.
    destruct (render_rows a rows (S i) rest) as [out r]. reflexivity.
  - reflexivity.
Qed.

Lemma on_lines_Ok (f : list string -> list string) (m : io (list string))
    (out lines : list string) :
  on_lines f m = (out, Ok lines) ->
  exists lines', m = (out, Ok lines') /\ lines = f lines'.
Proof.
  destruct m as [o [l|e]]; unfold on_lines; simpl; intros H.
  - injection H as -> <-. eauto.
  - injection H as _ H. discriminate.
Qed.

Lemma absent_hline (rows : list (cell * (series * series))) :
  absent rows "hline" = false.
Proof. reflexivity. Qed.

(** The three ways an entry of [row_order] is treated. *)
Lemma row_entry_cases (rows : list (cell * (series * series))) (row_k : string) :
  row_k = "hline" \/
  absent rows row_k = true \/
  (String.eqb row_k "hline" = false /\ absent rows row_k = false /\
   exists row_y row_std, lookup row_k rows = Some (row_y, row_std)).
Proof.
  unfold absent.
  destruct (String.eqb_spec row_k "hline") as [->|Hk]; [left; reflexivity|].
  right. destruct (lookup row_k rows) as [[row_y row_std]|]; simpl.
  - right. eauto.
  - left. reflexivity.
Qed.

(** Inversion of one successful step on a present row. *)
Lemma render_rows_present_Ok (a : args) (rows : list (cell * (series * series)))
    (i : nat) (row_k : string) (rest : list string) (row_y row_std : series)
    (out lines : list string) :
  String.eqb row_k "hline" = false ->
  lookup row_k rows = Some (row_y, row_std) ->
  render_rows a rows i (row_k :: rest) = (out, Ok lines) ->
  exists cells lines',
    render_rows a rows (S i) rest = (out, Ok lines') /\
    lines = data_row a (S i) row_k cells :: lines'.
Proof.
  intros Hk Hl H. rewrite (render_rows_present _ _ _ _ _ _ _ Hk Hl) in H.
  destruct (highlights a rows row_k row_y) as [sel|e]; [|discriminate].
  destruct (mapM _ (col_order a)) as [cells|e]; [|discriminate].
  apply on_lines_Ok in H as (lines' & H & ->). eauto.
Qed.

Lemma render_rows_absent_Ok (a : args) (rows : list (cell * (series * series)))
    (i : nat) (row_k : string) (rest : list string) (out lines : list string) :
  absent rows row_k = true ->
  render_rows a rows i (row_k :: rest) = (out, Ok lines) ->
  exists out' lines',
    render_rows a rows i rest = (out', Ok lines') /\
    out = diagnostic row_k :: out' /\
    lines = blank_row a row_k :: lines'.
Proof.
  intros Ha H. rewrite (render_rows_absent _ _ _ _ _ Ha) in H.
  destruct (render_rows a rows i rest) as [out' [lines'|e]]; simpl in H.
  - injection H as <- <-. eauto.
  - discriminate.
Qed.

(** The loop at the row keys without aggregated data. *)
Lemma render_rows_absent_rows :
  forall (a : args) (rows : list (cell * (series * series))),
    (forall (i : nat) (row_k : string) (rest : list string),
       absent rows row_k = true ->
       render_rows a rows i (row_k :: rest) =
       (diagnostic row_k :: fst (render_rows a rows i rest),
        match snd (render_rows a rows i rest) with
        | Ok lines => Ok (blank_row a row_k :: lines)
        | Raise e => Raise e
        end)) /\
    (forall (order : list string) (i : nat) (out lines : list string),
       render_rows a rows i order = (out, Ok lines) ->
       out = map diagnostic (filter (absent rows) order) /\
       List.length lines = List.length order /\
       forall (n : nat) (row_k : string),
         nth_error order n = Some row_k ->
         absent rows row_k = true ->
         nth_error lines n = Some (blank_row a row_k)).
Proof.
  intros a rows. split; [intros; apply render_rows_absent; assumption|].
  induction order as [|k rest IH]; intros i out lines H.
  - simpl in H. injection H as <- <-. repeat split.
    intros [|n] row_k Hn; discriminate.
  - destruct (row_entry_cases rows k) as [-> | [Ha | (Hk & Ha & row_y & row_std & Hl)]].
    + rewrite render_rows_hline in H.
      apply on_lines_Ok in H as (lines' & H & ->).
      destruct (IH _ _ _ H) as (Hout & Hlen & Hnth).
      cbn [filter]. rewrite absent_hline. repeat split.
      * exact Hout.
      * simpl. rewrite Hlen. reflexivity.
      * intros [|n] row_k Hn Hrow; simpl in Hn |- *.
        -- injection Hn as <-. rewrite absent_hline in Hrow. discriminate.
        -- eauto.
    + apply (render_rows_absent_Ok _ _ _ _ _ _ _ Ha) in H as (out' & lines' & H & -> & ->).
      destruct (IH _ _ _ H) as (Hout & Hlen & Hnth).
      cbn [filter]. rewrite Ha. repeat split.
      * simpl. rewrite Hout. reflexivity.
      * simpl. rewrite Hlen. reflexivity.
      * intros [|n] row_k Hn Hrow; simpl in Hn |- *.
        -- injection Hn as <-. reflexivity.
        -- eauto.
    + apply (render_rows_present_Ok _ _ _ _ _ _ _ _ _ Hk Hl) in H as (cells & lines' & H & ->).
      destruct (IH _ _ _ H) as (Hout & Hlen & Hnth).
      cbn [filter]. rewrite Ha. repeat split.
      * exact Hout.
      * simpl. rewrite Hlen. reflexivity.
      * intros [|n] row_k Hn Hrow; simpl in Hn |- *.
        -- injection Hn as <-. rewrite Ha in Hrow. discriminate.
        -- eauto.
Qed.


(** ** The separators (lines 257-268) *)

Lemma append_assoc (s t u : string) : (s ++ t) ++ u = s ++ (t ++ u).
Proof.
  induction s as [|c s IH]; simpl; [reflexivity | rewrite IH; reflexivity].
Qed.

Lemma append_nil_r (s : string) : s ++ "" = s.
Proof.
  induction s as [|c s IH]; simpl; [reflexivity | rewrite IH; reflexivity].
Qed.

Lemma prefix_app (sub s t : string) :
  prefix sub s = true -> prefix sub (s ++ t) = true.
Proof.
  revert s. induction sub as [|c sub IH]; intros s H.
  - destruct (s ++ t); reflexivity.
  - destruct s as [|d s]; simpl in H |- *; [discriminate|].
    destruct (ascii_dec c d); [auto | discriminate].
Qed.

Lemma contains_app_l (sub s t : string) :
  contains sub s = true -> contains sub (s ++ t) = true.
Proof.
  induction s as [|c s IH]; intros H.
  - simpl in H. rewrite orb_false_r in H.
    destruct sub; [|discriminate H].
    destruct t; reflexivity.
  - cbn [contains] in H. apply orb_true_iff in H as [H|H].
    + change (String c s ++ t) with (String c (s ++ t)) in *.
      cbn [contains]. apply orb_true_iff. left.
      apply (prefix_app sub (String c s) t H).
    + change (String c s ++ t) with (String c (s ++ t)).
      cbn [contains]. apply orb_true_iff. right. auto.
Qed.

Lemma contains_app_r (sub s t : string) :
  contains sub t = true -> contains sub (s ++ t) = true.
Proof.
  intros H. induction s as [|c s IH]; [exact H|].
  change (String c s ++ t) with (String c (s ++ t)).
  cbn [contains]. rewrite IH. apply orb_true_r.
Qed.

Lemma contains_join (sub sep x : string) (xs : list string) :
  In x xs -> contains sub x = true -> contains sub (join sep xs) = true.
Proof.
  intros Hin Hx. induction xs as [|y xs IH]; [contradiction|].
  destruct Hin as [-> | Hin].
  - destruct xs; simpl; [exact Hx | apply contains_app_l; exact Hx].
  - destruct xs as [|z xs]; [contradiction|].
    change (join sep (y :: z :: xs)) with (y ++ sep ++ join sep (z :: xs)).
    do 2 apply contains_app_r. auto.
Qed.

Lemma prefix_clean_text (sub s : string) :
  plain sub = true -> prefix sub s = true -> prefix sub (clean_text s) = true.
Proof.
  revert s. induction sub as [|c sub IH]; intros s Hp H.
  - destruct (clean_text s); reflexivity.
  - destruct s as [|d s]; [discriminate|].
    cbn [prefix] in H. destruct (ascii_dec c d) as [<-|]; [|discriminate].
    unfold plain in Hp. cbn [list_ascii_of_string forallb] in Hp.
    apply andb_true_iff in Hp as (Hc & Hp).
    apply andb_true_iff in Hc as (Hc1 & Hc2).
    apply negb_true_iff in Hc1, Hc2.
    cbn [clean_text]. rewrite Hc1, Hc2. cbn [prefix].
    destruct (ascii_dec c c); [|contradiction]. auto.
Qed.

Lemma contains_clean_text (sub s : string) :
  plain sub = true -> contains sub s = true -> contains sub (clean_text s) = true.
Proof.
  intros Hp. induction s as [|c s IH]; intros H.
  - exact H.
  - pose proof (prefix_clean_text sub (String c s) Hp) as Hpre.
    cbn [contains] in H. apply orb_true_iff in H as [H|H].
    + specialize (Hpre H). destruct (clean_text (String c s)); cbn [contains];
        rewrite Hpre; reflexivity.
    + specialize (IH H). cbn [clean_text].
      destruct (Ascii.eqb c "%"%char); [|destruct (Ascii.eqb c "_"%char)];
        cbn [contains]; rewrite IH, ?orb_true_r; reflexivity.
Qed.

Lemma contains_data_row (a : args) (n : nat) (row_k part : string)
    (cells : list string) :
  In part (List.app (row_label a row_k) cells) ->
  contains "hline" part = true ->
  contains "hline" (data_row a n row_k cells) = true.
Proof.
  intros Hin Hp. unfold data_row.
  pose proof (contains_join "hline" col_sep _ _ Hin Hp) as H.
  destruct (_ && _); [apply contains_app_r|]; exact H.
Qed.

(** C9. What follows a rendered row is chosen by the substring test alone:
    a row that is not the last one, or any row when [add_botrule] is set,
    is followed by a bare newline when its text contains ["hline"] and by
    the row separator otherwise (the last row has nothing after it without
    [add_botrule]).  A data row one of whose rendered parts (label or cell
    text, whatever is put before the row) contains ["hline"] therefore gets
    the bare newline, as the break line [\hline] does; so does one whose
    key, once renamed, contains it, under the default bolding of labels. *)
Theorem row_separator_by_substring_test :
  forall (a : args),
    (forall (before after : list string) (row_line : string),
       after <> [] \/ add_botrule a = true ->
       join_rows a (List.app before (row_line :: after)) =
       with_separators before ++ row_line ++
       (if contains "hline" row_line then nl else row_sep) ++ join_rows a after) /\
    (forall (before : list string) (row_line : string),
       add_botrule a = false ->
       join_rows a (List.app before [row_line]) = with_separators before ++ row_line) /\
    (forall (n : nat) (row_k part prefix : string) (cells : list string),
       In part (List.app (row_label a row_k) cells) ->
       contains "hline" part = true ->
       separator (prefix ++ data_row a n row_k cells) = nl /\
       separator "\hline" = nl) /\
    (forall (n : nat) (row_k : string) (cells : list string),
       show_row_labels a = true -> name_bold_fn a = None ->
       contains "hline" (dict_get (renames_dict a) row_k row_k) = true ->
       separator (data_row a n row_k cells) = nl).
Proof.
  intros a. split; [|split; [|split]].
  - induction before as [|b bs IH]; intros after row_line Hlast.
    + simpl List.app. simpl with_separators.
      destruct after as [|x after].
      * destruct Hlast as [Hne | Hbot]; [contradiction Hne; reflexivity|].
        simpl. rewrite Hbot. reflexivity.
      * reflexivity.
    + simpl List.app. simpl with_separators.
      rewrite !append_assoc, <- (IH after row_line Hlast).
      destruct (List.app bs (row_line :: after)) as [|x l] eqn:E.
      * destruct bs; discriminate.
      * reflexivity.
  - induction before as [|b bs IH]; intros row_line Hbot.
    + cbn [List.app join_rows with_separators]. rewrite Hbot.
      cbn [append]. apply append_nil_r.
    + simpl List.app. simpl with_separators.
      rewrite !append_assoc, <- (IH row_line Hbot).
      destruct (List.app bs [row_line]) as [|x l] eqn:E.
      * destruct bs; discriminate.
      * reflexivity.
  - intros n row_k part prefix cells Hin Hp. split; [|reflexivity].
    unfold separator.
    rewrite (contains_app_r "hline" prefix _ (contains_data_row a n row_k part cells Hin Hp)).
    reflexivity.
  - intros n row_k cells Hshow Hbold Hd. unfold separator.
    rewrite (contains_data_row a n row_k ("\textbf{" ++ display a row_k ++ "}") cells).
    + reflexivity.
    + unfold row_label. rewrite Hshow, Hbold. left. reflexivity.
    + apply contains_app_r, contains_app_l.
      apply contains_clean_text; [reflexivity | exact Hd].
Qed.

(** ** The whole call *)

(** A call that returns went through the five stages. *)
Lemma plot_table_Ok (a : args) (df : dataframe) (s : string) :
  returned (plot_table a df) = Ok s ->
  exists scaled rows out lines,
    scale_column df (value_scaling a) = Ok scaled /\
    aggregate a (sanitize a scaled) = Ok rows /\
    render_rows a rows 0 (row_order a) = (out, Ok lines) /\
    assemble a (header_line a) lines = Ok s /\
    frame (plot_table a df) = scaled /\
    stdout (plot_table a df) =
    List.app out [match write_to a with
                  | Some path => "Wrote result to " ++ path
                  | None => s
                  end].
Proof.
  unfold plot_table.
  destruct (scale_column df (value_scaling a)) as [scaled|e] eqn:E1; [|discriminate].
  destruct (aggregate a (sanitize a scaled)) as [rows|e] eqn:E2; [|discriminate].
  destruct (render_rows a rows 0 (row_order a)) as [out [lines|e]] eqn:E3;
    [|discriminate].
  destruct (assemble a (header_line a) lines) as [s'|e] eqn:E4; [|discriminate].
  intros H. exists scaled, rows, out, lines.
  destruct (write_to a); simpl in H |- *; injection H as ->; repeat split;
    reflexivity || assumption.
Qed.

(** The caller's frame after the call: the value column scaled in place,
    unless the scaling itself raised. *)
Lemma plot_table_frame (a : args) (df : dataframe) :
  frame (plot_table a df) =
  match scale_column df (value_scaling a) with
  | Ok scaled => scaled
  | Raise _ => df
  end.
Proof.
  unfold plot_table.
  destruct (scale_column df (value_scaling a)) as [scaled|e]; [|reflexivity].
  destruct (aggregate a (sanitize a scaled)) as [rows|e]; [|reflexivity].
  destruct (render_rows a rows 0 (row_order a)) as [out [lines|e]]; [|reflexivity].
  destruct (assemble a (header_line a) lines) as [s'|e]; [|reflexivity].
  destruct (write_to a); reflexivity.
Qed.

(** A string in the value column and a float [value_scaling]: line 95
    raises. *)
Lemma string_times_float_raises (a : args) (df : dataframe) (r : record)
    (s : string) (x : float) :
  In r df -> at_cell_key r = VStr s -> value_scaling a = SFloat x ->
  returned (plot_table a df) = Raise TypeError /\ frame (plot_table a df) = df.
Proof.
  intros Hin Hr Hk. unfold plot_table. rewrite Hk.
  unfold scale_column.
  rewrite (mapM_raise _ df r TypeError Hin).
  - split; reflexivity.
  - intros y _. destruct (at_cell_key y); simpl; eauto.
  - rewrite Hr. reflexivity.
Qed.

Lemma contains_join_rows (a : args) (sub x : string) (row_lines : list string) :
  In x row_lines -> contains sub x = true ->
  contains sub (join_rows a row_lines) = true.
Proof.
  intros Hin Hx. induction row_lines as [|y l IH]; [contradiction|].
  cbn [join_rows]. destruct Hin as [-> | Hin].
  - apply contains_app_l. exact Hx.
  - do 2 apply contains_app_r. auto.
Qed.

Ltac find_rows :=
  lazymatch goal with
  | |- contains _ (join_rows _ _) = true => idtac
  | |- contains _ (_ ++ _) = true =>
      first [ apply contains_app_r; find_rows | apply contains_app_l; find_rows ]
  end.

(** Whatever a row line contains, the block contains. *)
Lemma assemble_contains (a : args) (header sub x s : string) (lines : list string) :
  assemble a header lines = Ok s ->
  In x lines -> contains sub x = true -> contains sub s = true.
Proof.
  unfold assemble. intros H Hin Hx.
  apply bind_Ok in H as ([[[[[chs sol] top] mid] bot] row_lines] & Hlay & H).
  assert (Hrow : exists y, In y row_lines /\ contains sub y = true).
  { destruct (y_label a =? "")%string.
    - apply Ok_inj, (f_equal snd) in Hlay. cbn [snd] in Hlay. subst row_lines. eauto.
    - destruct lines as [|l0 ls]; [contradiction|].
      cbn [map] in Hlay.
      apply Ok_inj, (f_equal snd) in Hlay. cbn [snd] in Hlay. subst row_lines.
      destruct Hin as [-> | Hin].
      + eexists. split; [left; reflexivity|]. do 4 apply contains_app_r. exact Hx.
      + exists (" & " ++ x). split.
        * right. apply in_map_iff. eauto.
        * apply contains_app_r. exact Hx. }
  destruct Hrow as (y & Hy & Hcy).
  pose proof (contains_join_rows a sub y row_lines Hy Hcy) as Hj.
  apply Ok_inj in H. subst s.
  destruct (add_tabular a), (show_col_labels a), (add_botrule a);
    find_rows; exact Hj.
Qed.

(** The loop at a ["hline"] entry. *)
Lemma render_rows_split_at_hline :
  forall (a : args) (rows : list (cell * (series * series)))
         (before after : list string) (i : nat) (out lines : list string),
    render_rows a rows i (List.app before ("hline" :: after)) = (out, Ok lines) ->
    exists out1 lines1 out2 lines2,
      render_rows a rows i before = (out1, Ok lines1) /\
      render_rows a rows 0 after = (out2, Ok lines2) /\
      out = List.app out1 out2 /\
      lines = List.app lines1 ("\hline" :: lines2) /\
      List.length lines1 = List.length before /\
      nth_error lines (List.length before) = Some "\hline".
Proof.
  intros a rows before after.
  assert (Hnth : forall (l1 l2 : list string) (x : string) n,
             List.length l1 = n -> nth_error (List.app l1 (x :: l2)) n = Some x).
  { intros l1 l2 x n <-. rewrite nth_error_app2 by lia.
    rewrite Nat.sub_diag. reflexivity. }
  induction before as [|k rest IH]; intros i out lines H.
  - simpl List.app in H. rewrite render_rows_hline in H.
    apply on_lines_Ok in H as (lines' & H & ->).
    exists [], [], out, lines'. simpl. repeat split; auto.
  - simpl List.app in H.
    destruct (row_entry_cases rows k) as [-> | [Ha | (Hk & Ha & row_y & row_std & Hl)]].
    + rewrite render_rows_hline in H.
      apply on_lines_Ok in H as (lines' & H & ->).
      destruct (IH _ _ _ H) as (out1 & l1 & out2 & l2 & H1 & H2 & -> & -> & Hlen & _).
      exists out1, ("\hline" :: l1), out2, l2.
      rewrite render_rows_hline, H1. unfold on_lines. simpl.
      repeat split; auto; apply Hnth; simpl; auto.
    + apply (render_rows_absent_Ok _ _ _ _ _ _ _ Ha) in H as (out' & lines' & H & -> & ->).
      destruct (IH _ _ _ H) as (out1 & l1 & out2 & l2 & H1 & H2 & -> & -> & Hlen & _).
      exists (diagnostic k :: out1), (blank_row a k :: l1), out2, l2.
      rewrite (render_rows_absent _ _ _ _ _ Ha), H1. simpl.
      repeat split; auto; apply Hnth; simpl; auto.
    + pose proof H as H'.
      rewrite (render_rows_present _ _ _ _ _ _ _ Hk Hl) in H'.
      rewrite (render_rows_present _ _ _ _ _ _ _ Hk Hl).
      destruct (highlights a rows k row_y) as [sel|e]; [|discriminate].
      destruct (mapM _ (col_order a)) as [cells|e]; [|discriminate].
      apply on_lines_Ok in H' as (lines' & H' & ->).
      destruct (IH _ _ _ H') as (out1 & l1 & out2 & l2 & H1 & H2 & -> & -> & Hlen & _).
      exists out1, (data_row a (S i) k cells :: l1), out2, l2.
      rewrite H1. unfold on_lines. simpl.
      repeat split; auto; apply Hnth; simpl; auto.
Qed.

(** C7. A ["hline"] entry of [row_order] splits the loop: the lines of a
    loop that completes are those of the entries before it, then the break
    line [\hline] at the position of the entry in place of a data row, then
    the lines of the entries after it rendered with the counter back at
    zero, whatever the counter was (so the parity of the coloured rows is
    counted from the break on).  The block a call returns is assembled from
    these lines and contains the break line. *)
Theorem hline_breaks_section_and_resets_parity :
  forall (a : args) (before after : list string),
    (forall (rows : list (cell * (series * series))) (i : nat)
            (out lines : list string),
       render_rows a rows i (List.app before ("hline" :: after)) = (out, Ok lines) ->
       exists out1 lines1 out2 lines2,
         render_rows a rows i before = (out1, Ok lines1) /\
         render_rows a rows 0 after = (out2, Ok lines2) /\
         out = List.app out1 out2 /\
         lines = List.app lines1 ("\hline" :: lines2) /\
         List.length lines1 = List.length before /\
         nth_error lines (List.length before) = Some "\hline") /\
    (forall (df : dataframe) (s : string),
       row_order a = List.app before ("hline" :: after) ->
       returned (plot_table a df) = Ok s ->
       exists rows out1 lines1 out2 lines2,
         render_rows a rows 0 before = (out1, Ok lines1) /\
         render_rows a rows 0 after = (out2, Ok lines2) /\
         assemble a (header_line a) (List.app lines1 ("\hline" :: lines2)) = Ok s /\
         contains "\hline" s = true).
Proof.
  intros a before after. split.
  - intros rows i out lines H. apply render_rows_split_at_hline. exact H.
  - intros df s Horder H.
    apply plot_table_Ok in H as (scaled & rows & out & lines & _ & _ & Hr & Has & _).
    rewrite Horder in Hr.
    apply render_rows_split_at_hline in Hr
      as (out1 & l1 & out2 & l2 & H1 & H2 & _ & -> & _ & _).
    exists rows, out1, l1, out2, l2. repeat split; try assumption.
    apply (assemble_contains a _ "\hline" "\hline" s _ Has).
    + apply in_or_app. right. left. reflexivity.
    + reflexivity.
Qed.

(** C8. A row key of [row_order] without aggregated data: the diagnostic is
    printed, a row of blank cells is appended, and the loop goes on with the
    rest of [row_order] and the same counter; the step raises nothing of its
    own.  Over a whole loop that completes, every such key has its blank
    row at its own position, and the lines printed are exactly the
    diagnostics of these keys, in order: a call that returns has printed
    them and then its closing line, nothing else. *)
Theorem absent_row_blank_cells_and_diagnostic :
  forall (a : args),
    (forall (rows : list (cell * (series * series))) (i : nat)
            (row_k : string) (rest : list string),
       absent rows row_k = true ->
       render_rows a rows i (row_k :: rest) =
       (diagnostic row_k :: fst (render_rows a rows i rest),
        match snd (render_rows a rows i rest) with
        | Ok lines => Ok (blank_row a row_k :: lines)
        | Raise e => Raise e
        end)) /\
    (forall (rows : list (cell * (series * series))) (order : list string)
            (i : nat) (out lines : list string),
       render_rows a rows i order = (out, Ok lines) ->
       out = map diagnostic (filter (absent rows) order) /\
       List.length lines = List.length order /\
       forall (n : nat) (row_k : string),
         nth_error order n = Some row_k ->
         absent rows row_k = true ->
         nth_error lines n = Some (blank_row a row_k)) /\
    (forall (df : dataframe) (s : string),
       returned (plot_table a df) = Ok s ->
       exists rows,
         aggregate a (sanitize a (frame (plot_table a df))) = Ok rows /\
         stdout (plot_table a df) =
         List.app (map diagnostic (filter (absent rows) (row_order a)))
                  [match write_to a with
                   | Some path => "Wrote result to " ++ path
                   | None => s
                   end]).
Proof.
  intros a. split; [|split].
  - intros rows. apply (render_rows_absent_rows a rows).
  - intros rows. apply (render_rows_absent_rows a rows).
  - intros df s H.
    apply plot_table_Ok in H as (scaled & rows & out & lines & _ & Hagg & Hr & _ & -> & ->).
    exists rows. split; [exact Hagg|].
    destruct (render_rows_absent_rows a rows) as (_ & Hloop).
    destruct (Hloop _ _ _ _ Hr) as (-> & _). reflexivity.
Qed.

(** * Concrete runs *)

Lemma df_clean_numeric : numeric df_clean.
Proof.
  intros r Hr. simpl in Hr.
  repeat (destruct Hr as [<- | Hr]; [eexists; reflexivity|]).
  contradiction.
Defined.


(** The statement for C6 at [df_err]: the dispersion is the mean 0.25 of
    the error column, not the standard deviation 1 of the values, and not
    what [compute_err_fn] returns. *)
Lemma err_key_overrides_std_and_err_fn_witness :
  let a := with_compute_err_fn (with_err_key args0 "err") (fun _ => []) in
  hasnans (err_means "err" (row_group (VStr "r1") df_err)) = false /\
  exists rows avg sd,
    aggregate a df_err = Ok rows /\
    lookup "r1" rows = Some (avg, sd) /\
    lookup "c1" sd = Some 0.25%float /\
    std (floats_of df_err) = 1%float.
Proof.
  intros a.
  assert (Hnan : hasnans (err_means "err" (row_group (VStr "r1") df_err)) = false)
    by (vm_compute; reflexivity).
  assert (Hagg : aggregate a df_err =
                 Ok [(VStr "r1", ([(VStr "c1", 2%float)], [(VStr "c1", 0.25%float)]))])
    by (vm_compute; reflexivity).
  split; [exact Hnan|].
  eexists _, _, _. split; [exact Hagg|]. split; [reflexivity|].
  destruct (proj1 (err_key_overrides_std_and_err_fn a "err" df_err _ "r1" _ _
                     eq_refl Hagg eq_refl) Hnan) as (_ & _ & Hcell).
  split; [|vm_compute; reflexivity].
  rewrite (Hcell "c1" 2%float eq_refl). vm_compute. reflexivity.
Defined.

(** C6 as stated fails on [df_inf]: the error column holds no NaN, yet its
    mean over the group is NaN ([inf + -inf]), line 115 does not select it,
    and the dispersion of the cell stays the standard deviation 1. *)
Lemma err_key_not_selected_on_infinities :
  let a := with_err_key args0 "err" in
  exists rows avg sd s,
    existsb is_nan (err_floats "err" df_inf) = false /\
    aggregate a (sanitize a df_inf) = Ok rows /\
    lookup "r1" rows = Some (avg, sd) /\
    lookup "c1" sd = Some (std [1; 2; 3] * error_scaling a)%float /\
    lookup "c1" sd = Some 1%float /\
    is_nan (mean (err_floats "err" (matching (VStr "r1") (VStr "c1") df_inf))) = true /\
    lookup "c1" sd <>
    Some (mean (err_floats "err" (matching (VStr "r1") (VStr "c1") df_inf))) /\
    returned (plot_table a df_inf) = Ok s /\
    contains " 2.00 {\scriptsize $ \pm$ 1.00  }" s = true.
Proof.
  intros a.
  exists rows_123, [(VStr "c1", 2%float)], [(VStr "c1", 1%float)].
  eexists. repeat split; try (vm_compute; reflexivity).
  intros H. apply (f_equal (fun o => match o with
                                     | Some x => is_nan x
                                     | None => false
                                     end)) in H.
  vm_compute in H. discriminate.
Qed.

(** The statement for C10 at [df_nan]: the column group (r2, c1) has no
    number in the error column, so ["r2"] falls back to the standard
    deviations, while ["r1"] keeps the means of the error column. *)
Lemma err_key_decided_per_row_group_witness :
  let a := with_err_key args0 "err" in
  exists rows avg1 sd1 avg2 sd2,
    aggregate a df_nan = Ok rows /\
    In (VStr "r1", (avg1, sd1)) rows /\
    In (VStr "r2", (avg2, sd2)) rows /\
    sd1 = err_means "err" (row_group (VStr "r1") df_nan) /\
    sd2 = map (fun cg => (fst cg, (std (floats_of (snd cg)) * error_scaling a)%float))
              (groupby at_col_key (row_group (VStr "r2") df_nan)).
Proof.
  intros a.
  assert (Hagg : aggregate a df_nan =
                 Ok [ (VStr "r1", ([(VStr "c1", 2%float)], [(VStr "c1", 1%float)]));
                      (VStr "r2", ([(VStr "c1", 2%float); (VStr "c2", 5%float)],
                                   [(VStr "c1", 1%float); (VStr "c2", nan)])) ])
    by (vm_compute; reflexivity).
  eexists _, _, _, _, _. split; [exact Hagg|].
  split; [left; reflexivity|]. split; [right; left; reflexivity|]. split.
  - apply (proj1 (proj2 (err_key_decided_per_row_group a "err" df_nan _ (VStr "r1") _ _
                           eq_refl Hagg (or_introl eq_refl)))).
    vm_compute. reflexivity.
  - apply (proj1 (err_key_decided_per_row_group a "err" df_nan _ (VStr "r2") _ _
                    eq_refl Hagg (or_intror (or_introl eq_refl)))).
    vm_compute. reflexivity.
Defined.

(** C10 as stated fails on the row group ["r1"] of [df_nan]: its error
    column contains a NaN, but the mean skips it, line 115 sees no NaN, and
    the dispersion is the mean 1 of the error column, not the fallback
    (the standard deviation 2 of the values 0, 2, 4). *)
Lemma err_key_nan_entry_is_skipped :
  let a := with_err_key args0 "err" in
  let row_df := row_group (VStr "r1") df_nan in
  exists rows avg sd,
    existsb is_nan (err_floats "err" row_df) = true /\
    aggregate a (sanitize a df_nan) = Ok rows /\
    lookup "r1" rows = Some (avg, sd) /\
    sd = err_means "err" row_df /\
    sd = [(VStr "c1", 1%float)] /\
    fallback_err a row_df = [(VStr "c1", 2%float)] /\
    sd <> fallback_err a row_df.
Proof.
  intros a row_df.
  exists [ (VStr "r1", ([(VStr "c1", 2%float)], [(VStr "c1", 1%float)]));
           (VStr "r2", ([(VStr "c1", 2%float); (VStr "c2", 5%float)],
                        [(VStr "c1", 1%float); (VStr "c2", nan)])) ].
  exists [(VStr "c1", 2%float)], [(VStr "c1", 1%float)].
  repeat split; try (vm_compute; reflexivity).
  intros H.
  apply (f_equal (fun s : series => match s with
                                    | (_, x) :: _ => PrimFloat.eqb x 1
                                    | [] => false
                                    end)) in H.
  vm_compute in H. discriminate.
Qed.

(** The statement for C7 with coloured rows: two rows, a break, two rows.
    The second row of each section is coloured; the row after the break is
    not, although it is the third data row of the table. *)
Lemma hline_breaks_section_and_resets_parity_witness :
  let a := with_alternating_color_rows args0 true in
  exists out lines lines2,
    render_rows a rows_123 0 ["r1"; "r1"; "hline"; "r1"; "r1"] = (out, Ok lines) /\
    render_rows a rows_123 0 ["r1"; "r1"] = ([], Ok lines2) /\
    lines = List.app lines2 ("\hline" :: lines2) /\
    nth_error lines 2 = Some "\hline" /\
    option_map (prefix "\rowcolor{Gray} ") (nth_error lines 1) = Some true /\
    option_map (prefix "\rowcolor{Gray} ") (nth_error lines 3) = Some false /\
    option_map (prefix "\rowcolor{Gray} ") (nth_error lines 4) = Some true.
Proof.
  intros a.
  destruct (render_rows a rows_123 0 ["r1"; "r1"; "hline"; "r1"; "r1"])
    as [out [lines|e]] eqn:E; [|vm_compute in E; discriminate].
  destruct (proj1 (hline_breaks_section_and_resets_parity a ["r1"; "r1"] ["r1"; "r1"])
              rows_123 0 out lines E)
    as (out1 & l1 & out2 & l2 & H1 & H2 & _ & Hl & _ & Hn).
  exists out, lines, l2.
  assert (E2 : render_rows a rows_123 0 ["r1"; "r1"] = ([], Ok l2)).
  { rewrite H2. vm_compute in H2. injection H2 as <- _. reflexivity. }
  assert (l1 = l2) as -> by congruence.
  repeat split; try assumption.
  all: vm_compute in E; injection E as _ <-; vm_compute; reflexivity.
Defined.

(** The statement for C8: the key ["zz"] has no data. *)
Lemma absent_row_blank_cells_and_diagnostic_witness :
  let a := with_row_order args0 ["r1"; "zz"; "r2"] in
  absent rows_123 "zz" = true /\
  render_rows a rows_123 0 ["zz"] =
  (["Could not find  zz"], Ok ["\textbf{zz} &  & "]) /\
  exists s,
    returned (plot_table a df_clean) = Ok s /\
    stdout (plot_table a df_clean) = ["Could not find  zz"; s].
Proof.
  intros a.
  destruct (absent_row_blank_cells_and_diagnostic a) as (Hstep & _ & Hcall).
  split; [reflexivity|]. split.
  - rewrite (Hstep rows_123 0 "zz" [] eq_refl). reflexivity.
  - destruct (returned (plot_table a df_clean)) as [s|e] eqn:E;
      [|vm_compute in E; discriminate].
    exists s. split; [reflexivity|].
    destruct (Hcall df_clean s E) as (rows & Hagg & ->).
    vm_compute in Hagg. injection Hagg as <-.
    reflexivity.
Defined.

(** The statement for C9: a row that merely mentions "hline" is followed
    by a bare newline, its neighbours by the row separator. *)
Lemma row_separator_by_substring_test_witness :
  join_rows args0 ["a"; "not an hline"; "b"; "c"] =
  "a" ++ row_sep ++ "not an hline" ++ nl ++ "b" ++ row_sep ++ "c" /\
  separator (data_row args0 1 "see_hline" ["1.0"]) = nl.
Proof.
  destruct (row_separator_by_substring_test args0) as (Hsep & _ & _ & Hlabel).
  split.
  - assert (Hafter : ["b"; "c"] <> [] \/ add_botrule args0 = true)
      by (left; discriminate).
    exact (Hsep ["a"] ["b"; "c"] "not an hline" Hafter).
  - apply Hlabel; reflexivity.
Defined.

(** ** Line 95 writes into the caller's frame *)

(** C2. Two calls in a row on the same frame object with
    [value_scaling = 2.0]: the first renders the mean 4.00 for the cell
    (r1, c1), the second 8.00, because the first call left the value column
    doubled. *)
Theorem second_call_renders_other_values :
  let a := with_value_scaling args0 (SFloat 2) in
  let first := plot_table a df_clean in
  let second := plot_table a (frame first) in
  exists s1 s2,
    returned first = Ok s1 /\
    returned second = Ok s2 /\
    contains "\textbf{r1} &  4.00 " s1 = true /\
    contains "\textbf{r1} &  8.00 " s2 = true /\
    contains "\textbf{r1} &  4.00 " s2 = false /\
    s1 <> s2.
Proof.
  intros a first second.
  destruct (returned first) as [s1|e] eqn:E1; [|vm_compute in E1; discriminate].
  destruct (returned second) as [s2|e] eqn:E2; [|vm_compute in E2; discriminate].
  exists s1, s2.
  assert (H1 : contains "\textbf{r1} &  4.00 " s1 = true).
  { vm_compute in E1. injection E1 as <-. vm_compute. reflexivity. }
  assert (H2 : contains "\textbf{r1} &  4.00 " s2 = false).
  { vm_compute in E2. injection E2 as <-. vm_compute. reflexivity. }
  repeat split; try assumption.
  - vm_compute in E2. injection E2 as <-. vm_compute. reflexivity.
  - intros ->. rewrite H1 in H2. discriminate.
Qed.

(** Line 95 touches the value column only. *)
Lemma scale_column_fields (df scaled : dataframe) (k : scalar) :
  scale_column df k = Ok scaled ->
  Forall2 (fun r r' =>
             at_row_key r' = at_row_key r /\
             at_col_key r' = at_col_key r /\
             others r' = others r /\
             py_mul (at_cell_key r) k = Ok (at_cell_key r'))
          df scaled.
Proof.
  intros H. apply mapM_Ok_inv in H.
  induction H as [|r r' df scaled Hr _ IH]; constructor; [|exact IH].
  apply bind_Ok in Hr as (v & Hv & Hr). injection Hr as <-. simpl. auto.
Qed.

(** C3. After a call the caller's frame is the frame with the value column
    multiplied by [value_scaling] (whenever that multiplication did not
    raise), the other columns being as they were: with
    [value_scaling = 2.0] the values 1, 2, 3, 0.5, 4, 8 of [df_clean] have
    become 2, 4, 6, 1, 8, 16. *)
Theorem caller_frame_is_scaled_in_place :
  (forall (a : args) (df : dataframe),
     frame (plot_table a df) =
     match scale_column df (value_scaling a) with
     | Ok scaled => scaled
     | Raise _ => df
     end) /\
  (forall (df scaled : dataframe) (k : scalar),
     scale_column df k = Ok scaled ->
     Forall2 (fun r r' =>
                at_row_key r' = at_row_key r /\
                at_col_key r' = at_col_key r /\
                others r' = others r /\
                py_mul (at_cell_key r) k = Ok (at_cell_key r'))
             df scaled) /\
  map at_cell_key (frame (plot_table (with_value_scaling args0 (SFloat 2)) df_clean)) =
  [VNum 2; VNum 4; VNum 6; VNum 1; VNum 8; VNum 16] /\
  frame (plot_table (with_value_scaling args0 (SFloat 2)) df_clean) <> df_clean.
Proof.
  split; [exact plot_table_frame|].
  split; [exact scale_column_fields|].
  split; [vm_compute; reflexivity|].
  intros H.
  apply (f_equal (fun df : dataframe =>
                    match map at_cell_key df with
                    | VNum x :: _ => PrimFloat.eqb x 1
                    | _ => false
                    end)) in H.
  vm_compute in H. discriminate.
Qed.

(** ** Sentinel markers in the value column *)

(** C4. A string in the value column and a float [value_scaling]: line 95
    raises [TypeError] ([str * float]) before the marker is replaced, for
    every frame and every float.  On a row group whose only record holds
    the marker ["missing"]: the default [value_scaling = 1.0] raises, so
    does 2.0; with the integer 2 the marker is repeated, not replaced, and
    the mean raises; only with the integer 1 is the cell rendered as "-". *)
Theorem missing_marker_with_value_scaling :
  (forall (a : args) (df : dataframe) (r : record) (s : string) (x : float),
     In r df -> at_cell_key r = VStr s -> value_scaling a = SFloat x ->
     returned (plot_table a df) = Raise TypeError) /\
  returned (plot_table args0 df_missing) = Raise TypeError /\
  returned (plot_table (with_value_scaling args0 (SFloat 2)) df_missing) = Raise TypeError /\
  returned (plot_table (with_value_scaling args0 (SInt 2)) df_missing) = Raise TypeError /\
  scale_column df_missing (SInt 2) =
  Ok [record_of "r1" "c1" (VStr "missingmissing") []] /\
  exists s,
    returned (plot_table (with_value_scaling args0 (SInt 1)) df_missing) = Ok s /\
    contains "\textbf{r1} & - & - " s = true.
Proof.
  split.
  { intros a df r s x Hin Hr Hk.
    apply (string_times_float_raises a df r s x Hin Hr Hk). }
  repeat split; try (vm_compute; reflexivity).
  eexists. split; vm_compute; reflexivity.
Qed.

(** C5. A row group whose only record holds the marker ["error"]: with the
    default [value_scaling = 1.0] line 95 raises [TypeError] before the
    marker is replaced; with the integer 1 the cell is rendered as "E". *)
Theorem error_marker_with_value_scaling :
  returned (plot_table args0 df_error) = Raise TypeError /\
  frame (plot_table args0 df_error) = df_error /\
  stdout (plot_table args0 df_error) = [] /\
  exists s,
    returned (plot_table (with_value_scaling args0 (SInt 1)) df_error) = Ok s /\
    contains "\textbf{r1} & E & - " s = true.
Proof.
  repeat split; try (vm_compute; reflexivity).
  eexists. split; vm_compute; reflexivity.
Qed.

(** * Further properties of the code *)

(** ** [clean_text] (lines 129-130) *)

(** X1. The text [clean_text] returns holds no underscore, every percent
    sign in it comes right after a backslash, and it is longer than the
    argument by one character per percent sign of the argument. *)
Theorem clean_text_escapes :
  forall (s : string),
    count_char "_" (clean_text s) = 0 /\
    (forall b, escaped b (clean_text s) = true) /\
    String.length (clean_text s) = String.length s + count_char "%" s.
Proof.
  induction s as [|c s (IH1 & IH2 & IH3)].
  - repeat split.
  - cbn [clean_text].
    destruct (Ascii.eqb_spec c "%"%char) as [->|Hp].
    + repeat split.
      * exact IH1.
      * intros b. cbn [escaped]. simpl. apply IH2.
      * cbn [String.length count_char]. rewrite IH3. simpl. lia.
    + destruct (Ascii.eqb_spec c "_"%char) as [->|Hu].
      * repeat split.
        -- exact IH1.
        -- intros b. cbn [escaped]. simpl. apply IH2.
        -- cbn [String.length count_char]. rewrite IH3. simpl. lia.
      * apply Ascii.eqb_neq in Hp, Hu. repeat split.
        -- cbn [count_char]. rewrite Hu, IH1. reflexivity.
        -- intros b. cbn [escaped]. rewrite Hp. simpl. apply IH2.
        -- cbn [String.length count_char]. rewrite Hp, IH3. simpl. lia.
Qed.

(** ** The separators without any ["hline"] (lines 257-268) *)

(** X2. When no row line contains ["hline"], the loop of lines 257-268 is
    [row_sep.join(row_lines)], followed by one more separator under
    [add_botrule] (nothing is added after an empty list of rows). *)
Theorem join_rows_without_hline :
  forall (a : args) (row_lines : list string),
    (forall l, In l row_lines -> contains "hline" l = false) ->
    join_rows a row_lines =
    match row_lines with
    | [] => ""
    | _ :: _ => join row_sep row_lines ++ (if add_botrule a then row_sep else "")
    end.
Proof.
  intros a row_lines. induction row_lines as [|x rest IH]; intros H; [reflexivity|].
  assert (Hx : contains "hline" x = false) by (apply H; left; reflexivity).
  assert (Hrest : forall l, In l rest -> contains "hline" l = false)
    by (intros l Hl; apply H; right; exact Hl).
  specialize (IH Hrest). cbn [join_rows]. rewrite Hx, IH.
  destruct rest as [|y rest].
  - cbn [join]. destruct (add_botrule a); rewrite ?append_nil_r; reflexivity.
  - change (join row_sep (x :: y :: rest)) with (x ++ row_sep ++ join row_sep (y :: rest)).
    rewrite !append_assoc. reflexivity.
Qed.

Lemma join_rows_without_hline_witness :
  join_rows args0 ["a & 1"; "b & 2"; "c & 3"] =
  "a & 1" ++ row_sep ++ "b & 2" ++ row_sep ++ "c & 3".
Proof.
  rewrite (join_rows_without_hline args0 ["a & 1"; "b & 2"; "c & 3"]).
  - reflexivity.
  - intros l Hl. simpl in Hl.
    repeat (destruct Hl as [<- | Hl]; [reflexivity|]). contradiction.
Defined.

(** ** The scaling of line 95 *)

Lemma mapM_Raise_inv {A B} (f : A -> result B) (xs : list A) (e : exn) :
  mapM f xs = Raise e -> exists x, In x xs /\ f x = Raise e.
Proof.
  induction xs as [|x xs IH]; simpl; [discriminate|].
  destruct (f x) as [y|e'] eqn:E; simpl.
  - destruct (mapM f xs) as [ys|e'']; simpl; [discriminate|].
    intros H. injection H as ->. destruct (IH eq_refl) as (x' & Hx' & Hf). eauto.
  - intros H. injection H as ->. eauto.
Qed.

Lemma mapM_length {A B} (f : A -> result B) (xs : list A) (ys : list B) :
  mapM f xs = Ok ys -> List.length ys = List.length xs.
Proof.
  intros H. apply mapM_Ok_inv in H. symmetry. eapply Forall2_length. exact H.
Qed.

(** X3. With a float [value_scaling], line 95 raises exactly when the value
    column holds a string, and what it raises is [TypeError]; otherwise it
    yields a frame of the same number of records. *)
Theorem scale_column_float_raises_iff :
  forall (df : dataframe) (x : float),
    (scale_column df (SFloat x) = Raise TypeError <->
     exists r s, In r df /\ at_cell_key r = VStr s) /\
    (forall e, scale_column df (SFloat x) = Raise e -> e = TypeError) /\
    (forall scaled, scale_column df (SFloat x) = Ok scaled ->
                    List.length scaled = List.length df /\ numeric df).
Proof.
  intros df x.
  assert (Hcase : forall r, (exists s, at_cell_key r = VStr s /\
                              py_mul (at_cell_key r) (SFloat x) = Raise TypeError) \/
                            (exists y, at_cell_key r = VNum y /\
                              py_mul (at_cell_key r) (SFloat x) = Ok (VNum (y * x)%float))).
  { intros r. destruct (at_cell_key r) as [y|s]; [right | left]; eauto. }
  split; [split|split].
  - intros H. apply mapM_Raise_inv in H as (r & Hr & E).
    destruct (Hcase r) as [(s & Hs & _) | (y & _ & Hy)].
    + eauto.
    + rewrite Hy in E. discriminate.
  - intros (r & s & Hr & Hs). unfold scale_column.
    apply (mapM_raise _ df r TypeError Hr).
    + intros r' _.
      destruct (Hcase r') as [(s' & _ & ->) | (y & _ & ->)]; simpl; eauto.
    + rewrite Hs. reflexivity.
  - intros e H. apply mapM_Raise_inv in H as (r & _ & E).
    destruct (Hcase r) as [(s & _ & Hs) | (y & _ & Hy)].
    + rewrite Hs in E. simpl in E. congruence.
    + rewrite Hy in E. discriminate.
  - intros scaled H. split; [eapply mapM_length; exact H|].
    intros r Hr.
    destruct (Hcase r) as [(s & Hs & _) | (y & Hy & _)]; [|eauto].
    assert (E : scale_column df (SFloat x) = Raise TypeError).
    { apply (mapM_raise _ df r TypeError Hr).
      - intros r' _.
        destruct (Hcase r') as [(s' & _ & ->) | (y & _ & ->)]; simpl; eauto.
      - rewrite Hs. reflexivity. }
    congruence.
Qed.

(** ** The replacement of the markers (lines 103-104) *)

Lemma replace_cell_twice (a : args) (v : cell) :
  let san v := replace_cell "error" (error_fill_value a)
                 (replace_cell "missing" (missing_fill_value a) v) in
  is_marker (san v) = false /\ san (san v) = san v /\
  (is_marker v = false -> san v = v).
Proof.
  destruct v as [x|s]; simpl; [repeat split|].
  destruct (String.eqb s "missing") eqn:Em; simpl; [repeat split; discriminate|].
  destruct (String.eqb s "error") eqn:Ee; simpl; [repeat split; discriminate|].
  rewrite Em, Ee. simpl. rewrite Ee. repeat split.
Qed.

(** X4. After lines 103-104 no cell of any column holds the marker
    ["missing"] or ["error"]; replacing once more changes nothing, and the
    number of records is the same as before. *)
Theorem sanitize_removes_markers :
  forall (a : args) (df : dataframe),
    (forall r, In r (sanitize a df) -> marker_free r = true) /\
    sanitize a (sanitize a df) = sanitize a df /\
    List.length (sanitize a df) = List.length df.
Proof.
  intros a df. split; [|split].
  - intros r Hr. unfold sanitize, replace in Hr. rewrite map_map in Hr.
    apply in_map_iff in Hr as (r0 & <- & _). unfold marker_free. cbn.
    rewrite !(proj1 (replace_cell_twice a _)). simpl.
    rewrite map_map. apply forallb_forall. intros kv Hkv.
    apply in_map_iff in Hkv as (kv0 & <- & _). cbn.
    rewrite (proj1 (replace_cell_twice a _)). reflexivity.
  - unfold sanitize, replace. rewrite !map_map. apply map_ext. intros r. cbn.
    rewrite !(proj1 (proj2 (replace_cell_twice a _))). f_equal.
    rewrite !map_map. apply map_ext. intros kv. cbn.
    rewrite (proj1 (proj2 (replace_cell_twice a _))). reflexivity.
  - unfold sanitize, replace. rewrite !length_map. reflexivity.
Qed.

(** ** The block around the rows (lines 218-278) *)

(** The only exception of the assembly: the first row of an empty list of
    rows, asked for by a side label (line 230). *)
Lemma assemble_result (a : args) (header : string) (lines : list string) :
  (String.eqb (y_label a) "" = false /\ lines = [] /\
   assemble a header lines = Raise IndexError) \/
  ((String.eqb (y_label a) "" = true \/ lines <> []) /\
   exists s, assemble a header lines = Ok s).
Proof.
  unfold assemble. destruct (String.eqb (y_label a) "") eqn:Ey.
  - right. split; [left; reflexivity|]. cbn [Py.bind]. eauto.
  - destruct lines as [|l ls].
    + left. repeat split.
    + right. split; [right; discriminate|]. cbn [map Py.bind]. eauto.
Qed.

(** X5. A side label and an empty [row_order]: once the frame is scaled
    and aggregated, line 230 raises [IndexError]; by then the caller's
    frame holds the scaled column, and nothing was printed or written. *)
Theorem side_label_without_rows_raises :
  forall (a : args) (df scaled : dataframe) (rows : list (cell * (series * series))),
    row_order a = [] ->
    y_label a <> "" ->
    scale_column df (value_scaling a) = Ok scaled ->
    aggregate a (sanitize a scaled) = Ok rows ->
    returned (plot_table a df) = Raise IndexError /\
    frame (plot_table a df) = scaled /\
    stdout (plot_table a df) = [] /\
    files (plot_table a df) = [].
Proof.
  intros a df scaled rows Horder Hy Hs Hagg.
  unfold plot_table. rewrite Hs, Hagg, Horder. cbn [render_rows ret].
  destruct (assemble_result a (header_line a) []) as [(_ & _ & ->) | ([Hy' | Hne] & _)].
  - repeat split.
  - apply String.eqb_eq in Hy'. contradiction.
  - contradiction Hne. reflexivity.
Qed.

Lemma side_label_without_rows_raises_witness :
  let a := with_y_label (with_row_order args0 []) "runs" in
  returned (plot_table a df_clean) = Raise IndexError /\
  frame (plot_table a df_clean) = df_clean.
Proof.
  intros a.
  assert (Hs : scale_column df_clean (value_scaling a) = Ok df_clean)
    by (vm_compute; reflexivity).
  destruct (aggregate a (sanitize a df_clean)) as [rows|e] eqn:Hagg;
    [|vm_compute in Hagg; discriminate].
  assert (Hy : y_label a <> "") by discriminate.
  destruct (side_label_without_rows_raises a df_clean df_clean rows eq_refl Hy Hs Hagg)
    as (H1 & H2 & _).
  split; assumption.
Defined.

(** ** An empty frame *)

Lemma render_rows_no_data (a : args) (order : list string) (i : nat) :
  render_rows a [] i order =
  (map diagnostic (filter (fun k => negb (String.eqb k "hline")) order),
   Ok (map (empty_line a) order)).
Proof.
  revert i. induction order as [|k rest IH]; intros i; [reflexivity|].
  cbn [filter map]. unfold empty_line at 1.
  destruct (String.eqb_spec k "hline") as [->|Hk].
  - rewrite render_rows_hline, IH. reflexivity.
  - assert (Ha : absent [] k = true).
    { unfold absent. apply String.eqb_neq in Hk. rewrite Hk. reflexivity. }
    rewrite (render_rows_absent a [] i k rest Ha), IH. reflexivity.
Qed.

(** X6. On a frame without records, with a float [value_scaling] and
    without [write_to], nothing is aggregated: every entry of [row_order]
    but ["hline"] gets its diagnostic and a row of blank cells, and the
    call prints and returns the block of these rows, unless a side label
    meets an empty [row_order]. *)
Theorem empty_frame_gives_blank_rows :
  forall (a : args) (x : float),
    value_scaling a = SFloat x ->
    write_to a = None ->
    String.eqb (y_label a) "" = true \/ row_order a <> [] ->
    exists s,
      returned (plot_table a []) = Ok s /\
      assemble a (header_line a) (map (empty_line a) (row_order a)) = Ok s /\
      stdout (plot_table a []) =
      List.app (map diagnostic
                    (filter (fun k => negb (String.eqb k "hline")) (row_order a)))
               [s] /\
      files (plot_table a []) = [] /\
      frame (plot_table a []) = [].
Proof.
  intros a x Hk Hw H. unfold plot_table.
  assert (E1 : scale_column [] (value_scaling a) = Ok []) by reflexivity.
  assert (E2 : aggregate a (sanitize a []) = Ok []) by reflexivity.
  rewrite E1, E2, render_rows_no_data, Hw.
  destruct (assemble_result a (header_line a) (map (empty_line a) (row_order a)))
    as [(Hy & Hl & _) | (_ & s & Hs)].
  - destruct H as [H | H]; [congruence|].
    destruct (row_order a); [contradiction H; reflexivity | discriminate].
  - rewrite Hs. exists s. repeat split.
Qed.

Lemma empty_frame_gives_blank_rows_witness :
  exists s,
    returned (plot_table args0 []) = Ok s /\
    stdout (plot_table args0 []) = ["Could not find  r1"; "Could not find  r2"; s] /\
    contains ("\textbf{r1} &  &  \\" ++ nl ++ "\textbf{r2} &  & \bottomrule") s = true.
Proof.
  destruct (empty_frame_gives_blank_rows args0 1 eq_refl eq_refl (or_introl eq_refl))
    as (s & Hret & Has & Hout & _).
  exists s. split; [exact Hret|]. split; [exact Hout|].
  vm_compute in Has. injection Has as <-. vm_compute. reflexivity.
Defined.

(** ** The cells of a row (lines 133-138 and 146-216) *)






(** ** The highlights (lines 161-184) *)

Lemma render_rows_ignores_col_highlights (a : args)
    (f : string -> series -> selection)
    (g : option (string -> series -> selection))
    (rows : list (cell * (series * series))) :
  get_row_highlights a = Some f ->
  forall (order : list string) (i : nat),
    render_rows (with_get_col_highlights a g) rows i order = render_rows a rows i order.
Proof.
  intros Hf. induction order as [|k rest IH]; intros i; [reflexivity|].
  cbn [render_rows]. rewrite !IH.
  destruct (String.eqb k "hline"); [reflexivity|].
  destruct (lookup k rows) as [[row_y row_std]|]; [|reflexivity].
  assert (Hh : highlights (with_get_col_highlights a g) rows k row_y =
               highlights a rows k row_y).
  { unfold highlights. cbn. rewrite Hf. reflexivity. }
  rewrite Hh. reflexivity.
Qed.

(** X9. When a row-wise highlight callback is given, the column-wise one
    is never consulted: the call leaves the same frame, prints and writes
    the same, and returns the same, with any column-wise callback or none. *)
Theorem row_highlights_take_precedence :
  forall (a : args) (f : string -> series -> selection)
         (g : option (string -> series -> selection)) (df : dataframe),
    get_row_highlights a = Some f ->
    plot_table (with_get_col_highlights a g) df = plot_table a df.
Proof.
  intros a f g df Hf. unfold plot_table.
  change (value_scaling (with_get_col_highlights a g)) with (value_scaling a).
  destruct (scale_column df (value_scaling a)) as [scaled|e]; [|reflexivity].
  change (aggregate (with_get_col_highlights a g) (sanitize (with_get_col_highlights a g) scaled))
    with (aggregate a (sanitize a scaled)).
  destruct (aggregate a (sanitize a scaled)) as [rows|e]; [|reflexivity].
  change (row_order (with_get_col_highlights a g)) with (row_order a).
  rewrite (render_rows_ignores_col_highlights a f g rows Hf).
  reflexivity.
Qed.

Lemma row_highlights_take_precedence_witness :
  let a := with_get_row_highlights args0 (Some pick_all_columns) in
  plot_table (with_get_col_highlights a (Some pick_six)) df_clean = plot_table a df_clean /\
  exists s, returned (plot_table a df_clean) = Ok s /\
            contains "\textbf{r2} & \textbf{  6.00 " s = true.
Proof.
  intros a. split.
  - apply (row_highlights_take_precedence a pick_all_columns (Some pick_six) df_clean).
    reflexivity.
  - eexists. split; vm_compute; reflexivity.
Defined.

Lemma dict_keys_In (l seen : list string) (k : string) :
  In k (dict_keys seen l) <-> In k l /\ ~ In k seen.
Proof.
  revert seen. induction l as [|x l IH]; intros seen; simpl; [tauto|].
  destruct (existsb (String.eqb x) seen) eqn:E.
  - rewrite IH. apply existsb_exists in E as (y & Hy & Exy).
    apply String.eqb_eq in Exy. subst y.
    split; [tauto|]. intros ([-> | Hk] & Hn); [contradiction | tauto].
  - assert (Hx : ~ In x seen).
    { intros Hx. assert (existsb (String.eqb x) seen = true); [|congruence].
      apply existsb_exists. exists x. split; [exact Hx | apply String.eqb_refl]. }
    simpl. rewrite IH. simpl. split.
    + intros [<- | (Hk & Hn)]; [tauto|]. split; [tauto|]. intros Hs. apply Hn. tauto.
    + intros ([<- | Hk] & Hn); [tauto|].
      destruct (string_dec x k) as [->|Hne]; [tauto|]. right. split; [exact Hk|].
      intros [E' | Hs]; [congruence | contradiction].
Qed.

(** X10. With the column-wise callback alone, a column is highlighted in a
    row exactly when it is listed in [col_order] and the row key is in
    what the callback returns for that column; the selection raises
    [TypeError] exactly when the callback returns [None] for a listed
    column. *)
Theorem col_highlights_select_by_row :
  forall (a : args) (g : string -> series -> selection)
         (rows : list (cell * (series * series))) (row_k : string) (row_y : series),
    get_row_highlights a = None ->
    get_col_highlights a = Some g ->
    (forall sel col_k,
       highlights a rows row_k row_y = Ok sel ->
       (selected col_k sel = true <->
        In col_k (col_order a) /\
        selected row_k (g col_k (col_values rows col_k)) = true)) /\
    (highlights a rows row_k row_y = Raise TypeError <->
     exists col_k, In col_k (col_order a) /\ g col_k (col_values rows col_k) = SelNone).
Proof.
  intros a g rows row_k row_y Hf Hg. unfold highlights. rewrite Hf, Hg.
  set (pick := fun col_k : string =>
                 match g col_k (col_values rows col_k) with
                 | SelNone => Raise TypeError
                 | SelStr s => Ok (col_k, contains row_k s)
                 | SelList l => Ok (col_k, existsb (String.eqb row_k) l)
                 end).
  assert (Hpick : forall col_k p, pick col_k = Ok p ->
            p = (col_k, selected row_k (g col_k (col_values rows col_k)))).
  { intros col_k p. unfold pick. destruct (g col_k _); simpl; intros H;
      [discriminate | injection H as <-; reflexivity | injection H as <-; reflexivity]. }
  assert (Hnone : forall col_k, pick col_k = Raise TypeError <->
                                g col_k (col_values rows col_k) = SelNone).
  { intros col_k. unfold pick. destruct (g col_k _); split; intros H;
      try discriminate; reflexivity. }
  assert (Hkeys : forall k, In k (dict_keys [] (col_order a)) <-> In k (col_order a)).
  { intros k. rewrite dict_keys_In. simpl. tauto. }
  split.
  - intros sel col_k H. apply bind_Ok in H as (picks & Hp & H). injection H as <-.
    apply mapM_Ok_inv in Hp. simpl. split.
    + intros H. apply existsb_exists in H as (c & Hc & E).
      apply String.eqb_eq in E. subst c.
      apply in_map_iff in Hc as ([c b] & Ec & Hc). simpl in Ec. subst c.
      apply filter_In in Hc as (Hc & Hb). simpl in Hb. subst b.
      destruct (Forall2_In_r _ _ _ _ Hp Hc) as (k & Hk & E).
      apply Hpick in E. injection E as <- E. split; [apply Hkeys; exact Hk|].
      symmetry. exact E.
    + intros (Hin & Hsel). apply existsb_exists. exists col_k.
      split; [|apply String.eqb_refl].
      apply in_map_iff. exists (col_k, true). split; [reflexivity|].
      apply filter_In. split; [|reflexivity].
      apply Hkeys in Hin. clear - Hp Hin Hpick Hsel.
      induction Hp as [|k p ks ps Hkp _ IH]; [contradiction|].
      destruct Hin as [-> | Hin]; [|right; auto].
      left. rewrite (Hpick _ _ Hkp), Hsel. reflexivity.
  - split.
    + intros H. destruct (mapM pick (dict_keys [] (col_order a))) as [picks|e] eqn:E;
        [discriminate|].
      simpl in H. injection H as ->.
      apply mapM_Raise_inv in E as (k & Hk & E).
      exists k. split; [apply Hkeys; exact Hk | apply Hnone; exact E].
    + intros (k & Hk & E).
      rewrite (mapM_raise pick _ k TypeError); [reflexivity | apply Hkeys; exact Hk | |
                                                 apply Hnone; exact E].
      intros y _. unfold pick. destruct (g y _); eauto.
Qed.

Lemma col_highlights_select_by_row_witness :
  let a := with_get_col_highlights args0 (Some pick_six) in
  exists rows row_y s,
    aggregate a df_clean = Ok rows /\
    lookup "r2" rows = Some (row_y, s) /\
    highlights a rows "r2" row_y = Ok (SelList ["c1"]) /\
    (selected "c1" (SelList ["c1"]) = true <->
     In "c1" (col_order a) /\
     selected "r2" (pick_six "c1" (col_values rows "c1")) = true).
Proof.
  intros a.
  destruct (aggregate a df_clean) as [rows|e] eqn:Hagg; [|vm_compute in Hagg; discriminate].
  destruct (lookup "r2" rows) as [[row_y s]|] eqn:Hl;
    [|vm_compute in Hagg; injection Hagg as <-; vm_compute in Hl; discriminate].
  assert (Hh : highlights a rows "r2" row_y = Ok (SelList ["c1"])).
  { vm_compute in Hagg. injection Hagg as <-. vm_compute in Hl. injection Hl as <- <-.
    vm_compute. reflexivity. }
  exists rows, row_y, s.
  split; [assumption || reflexivity|]. split; [exact Hl|]. split; [exact Hh|].
  exact (proj1 (col_highlights_select_by_row a pick_six rows "r2" row_y
                  eq_refl eq_refl) _ "c1" Hh).
Defined.

(** ** An [err_key] that names no column (line 114) *)

Lemma row_stats_missing_column (a : args) (name : string) (row_df : list record) :
  err_key a = Some name -> numeric row_df -> row_df <> [] ->
  (forall r, In r row_df -> dict_find (others r) name = None) ->
  row_stats a row_df = Raise KeyError.
Proof.
  intros He Hnum Hne Hnone. unfold row_stats.
  rewrite select_cell_column. cbn [Py.bind].
  rewrite !reduce_numeric by exact Hnum. cbn [Py.bind]. rewrite He.
  assert (E : select (named_column name) row_df = Raise KeyError).
  { unfold select. destruct row_df as [|r rs]; [contradiction Hne; reflexivity|].
    rewrite (mapM_raise (named_column name) (r :: rs) r KeyError); [reflexivity | | |].
    - left. reflexivity.
    - intros y Hy. left. unfold named_column. rewrite (Hnone y Hy). reflexivity.
    - unfold named_column. rewrite (Hnone r (or_introl eq_refl)). reflexivity. }
  rewrite E. reflexivity.
Qed.

(** X11. When [err_key] names a column the frame does not have, a call on
    a numeric frame with a usable row key raises [KeyError] at line 114;
    the caller's frame holds the scaled column by then, and nothing was
    printed or written. *)
Theorem err_key_without_column_raises :
  forall (a : args) (name : string) (df scaled : dataframe),
    err_key a = Some name ->
    numeric df ->
    scale_column df (value_scaling a) = Ok scaled ->
    (forall r, In r df -> dict_find (others r) name = None) ->
    (exists r, In r (sanitize a scaled) /\
               key_eqb (at_row_key r) (at_row_key r) = true) ->
    returned (plot_table a df) = Raise KeyError /\
    frame (plot_table a df) = scaled /\
    stdout (plot_table a df) = [] /\
    files (plot_table a df) = [].
Proof.
  intros a name df scaled He Hnum Hs Hnone (r & Hr & Hk).
  assert (Hnum' : numeric (sanitize a scaled)).
  { apply sanitize_numeric. eapply scale_column_numeric; eauto. }
  assert (Hnone' : forall r', In r' (sanitize a scaled) ->
                              dict_find (others r') name = None).
  { intros r' Hr'. unfold sanitize, replace in Hr'. rewrite map_map in Hr'.
    apply in_map_iff in Hr' as (r1 & <- & Hr1). cbn [others].
    rewrite !dict_find_map.
    destruct (Forall2_In_r _ _ _ _ (scale_column_fields _ _ _ Hs) Hr1)
      as (r0 & Hr0 & _ & _ & -> & _).
    rewrite (Hnone r0 Hr0). reflexivity. }
  assert (Hagg : aggregate a (sanitize a scaled) = Raise KeyError).
  { destruct (groupby_cover at_row_key _ r Hr Hk) as (k & Hg & _).
    unfold aggregate.
    assert (Hall : forall kg, In kg (groupby at_row_key (sanitize a scaled)) ->
                              row_stats a (snd kg) = Raise KeyError).
    { intros [k' g'] Hg'. cbn [snd].
      apply row_stats_missing_column with (name := name); try assumption.
      - eapply numeric_group; eauto.
      - destruct (groupby_nonempty _ _ _ _ Hg') as (x & Hx & _).
        intros ->. contradiction.
      - intros r' Hr'. apply groupby_In in Hg' as (-> & _).
        apply filter_In in Hr' as (Hr' & _). auto. }
    eapply mapM_raise; [exact Hg | |].
    - intros kg Hkg. left. rewrite (Hall kg Hkg). reflexivity.
    - rewrite (Hall _ Hg). reflexivity. }
  unfold plot_table. rewrite Hs, Hagg. repeat split.
Qed.

Lemma err_key_without_column_raises_witness :
  returned (plot_table (with_err_key args0 "stderr") df_clean) = Raise KeyError.
Proof.
  apply (err_key_without_column_raises (with_err_key args0 "stderr") "stderr"
           df_clean df_clean eq_refl df_clean_numeric).
  - vm_compute. reflexivity.
  - intros r Hr. simpl in Hr.
    repeat (destruct Hr as [<- | Hr]; [reflexivity|]). contradiction.
  - exists (record_of "r1" "c1" (VNum 1) []). split; [left|]; reflexivity.
Defined.

(** ** A cell backed by one record (lines 110 and 199-207) *)

Lemma mul_nan_l (x y : float) : is_nan x = true -> is_nan (x * y) = true.
Proof.
  intros H. rewrite <- is_nan_Prim2SF in H |- *. rewrite mul_spec.
  destruct (Prim2SF x); try discriminate. reflexivity.
Qed.

(** [group_var] needs two entries. *)
Lemma std_short (xs : list float) : List.length xs <= 1 -> std xs = nan.
Proof.
  intros H. destruct xs as [|x [|y xs]]; [reflexivity| |simpl in H; lia].
  unfold std, group_std. cbn [fold_left var_step is_na binary64].
  destruct (negb (PrimFloat.eqb x x)); reflexivity.
Qed.

(** The two numbers lines 192-193 read, on a numeric frame. *)
Lemma aggregate_numeric_lookup (a : args) (df : dataframe)
    (rows : list (cell * (series * series))) (row_k col_k : string)
    (avg sd : series) (v : float) :
  numeric df -> err_key a = None -> compute_err_fn a = None ->
  aggregate a df = Ok rows ->
  lookup row_k rows = Some (avg, sd) -> lookup col_k avg = Some v ->
  v = mean (floats_of (matching (VStr row_k) (VStr col_k) df)) /\
  lookup col_k sd =
  Some (std (floats_of (matching (VStr row_k) (VStr col_k) df)) * error_scaling a)%float.
Proof.
  intros Hnum He Hc Hagg Hrow Hv.
  rewrite (aggregate_numeric a df Hnum He Hc) in Hagg. injection Hagg as <-.
  apply (lookup_groupby at_row_key
           (fun kg => (map (fun cg => (fst cg, mean (floats_of (snd cg))))
                           (groupby at_col_key (snd kg)),
                       map (fun cg => (fst cg, (std (floats_of (snd cg))
                                                * error_scaling a)%float))
                           (groupby at_col_key (snd kg))))) in Hrow.
  cbn [snd] in Hrow. injection Hrow as -> ->.
  rewrite (lookup_map (fun cg => mean (floats_of (snd cg)))) in Hv.
  rewrite (lookup_map (fun cg => (std (floats_of (snd cg)) * error_scaling a)%float)).
  destruct (lookup col_k (map (fun kv => (fst kv, kv)) _)) as [[k g]|] eqn:E;
    [|discriminate].
  apply lookup_In, in_map_iff in E as ([k' g'] & E & Hg). simpl in E.
  injection E as -> <- <-. injection Hv as <-.
  apply groupby_In in Hg as (-> & _). cbn [snd].
  rewrite filter_filter. split; reflexivity.
Qed.

(** X12. A cell computed from a single record has a NaN dispersion (the
    sample standard deviation of one value), so its default text is the
    formatted mean alone, without the part after the plus-minus sign,
    whatever [include_err] and [error_scaling] are. *)
Theorem single_record_cell_has_no_dispersion :
  forall (a : args) (df : dataframe) (rows : list (cell * (series * series)))
         (row_k col_k : string) (avg sd : series) (v : float),
    numeric df ->
    err_key a = None ->
    compute_err_fn a = None ->
    aggregate a df = Ok rows ->
    lookup row_k rows = Some (avg, sd) ->
    lookup col_k avg = Some v ->
    List.length (matching (VStr row_k) (VStr col_k) df) <= 1 ->
    exists d,
      lookup col_k sd = Some d /\
      is_nan d = true /\
      (custom_cell_format_fn a = None ->
       forall sel,
         cell_text a v d col_k row_k sel =
         bold_if (selected col_k sel) (" " ++ format_fixed (n_decimals a) v ++ " ")).
Proof.
  intros a df rows row_k col_k avg sd v Hnum He Hc Hagg Hrow Hv Hlen.
  destruct (aggregate_numeric_lookup a df rows row_k col_k avg sd v
              Hnum He Hc Hagg Hrow Hv) as (_ & Hsd).
  set (xs := floats_of (matching (VStr row_k) (VStr col_k) df)) in *.
  assert (Hstd : std xs = nan).
  { apply std_short.
    assert (H2 : List.length xs = List.length (matching (VStr row_k) (VStr col_k) df)).
    { apply floats_of_length. intros r Hr. apply filter_In in Hr as (Hr & _). auto. }
    lia. }
  eexists. split; [exact Hsd|].
  assert (Hnan : is_nan (std xs * error_scaling a) = true).
  { apply mul_nan_l. rewrite Hstd. reflexivity. }
  split; [exact Hnan|].
  intros Hcustom sel. unfold cell_text, bold_if.
  rewrite Hcustom, Hnan, andb_false_r. reflexivity.
Qed.

Lemma single_record_cell_has_no_dispersion_witness :
  exists rows avg sd d,
    aggregate args0 df_clean = Ok rows /\
    lookup "r1" rows = Some (avg, sd) /\
    lookup "c2" sd = Some d /\
    cell_text args0 0.5 d "c2" "r1" SelNone = " 0.50 ".
Proof.
  destruct (aggregate args0 df_clean) as [rows|e] eqn:Hagg;
    [|vm_compute in Hagg; discriminate].
  destruct (lookup "r1" rows) as [[avg sd]|] eqn:Hrow;
    [|vm_compute in Hagg; injection Hagg as <-; vm_compute in Hrow; discriminate].
  assert (Hv : lookup "c2" avg = Some 0.5%float).
  { vm_compute in Hagg. injection Hagg as <-. vm_compute in Hrow.
    injection Hrow as <- _. reflexivity. }
  destruct (single_record_cell_has_no_dispersion args0 df_clean rows "r1" "c2"
              avg sd 0.5%float df_clean_numeric eq_refl eq_refl Hagg Hrow Hv)
    as (d & Hd & _ & Htext).
  { vm_compute. lia. }
  exists rows, avg, sd, d. split; [reflexivity|]. split; [exact Hrow|].
  split; [exact Hd|]. rewrite (Htext eq_refl SelNone). vm_compute. reflexivity.
Defined.

(** ** Records under a NaN row key (line 107) *)

Lemma key_eqb_refl_l (k k' : cell) : key_eqb k k' = true -> key_eqb k k = true.
Proof.
  destruct k as [x|s], k' as [y|t]; simpl; try discriminate; intros H.
  - destruct (is_nan x) eqn:Hn.
    + rewrite eqb_spec in H. rewrite <- is_nan_Prim2SF in Hn.
      destruct (Prim2SF x); discriminate.
    + unfold is_nan in Hn. apply negb_false_iff in Hn. exact Hn.
  - apply String.eqb_refl.
Qed.

Lemma unique_keys_filter {A} (key : A -> cell) (xs : list A) (seen : list cell) :
  unique_keys seen (map key (filter (fun x => key_eqb (key x) (key x)) xs)) =
  unique_keys seen (map key xs).
Proof.
  revert seen. induction xs as [|x xs IH]; intros seen; [reflexivity|].
  cbn [filter map]. destruct (key_eqb (key x) (key x)) eqn:E.
  - cbn [map unique_keys]. rewrite E, !IH. reflexivity.
  - cbn [unique_keys]. rewrite E. cbn [andb]. apply IH.
Qed.

Lemma groupby_filter {A} (key : A -> cell) (xs : list A) :
  groupby key (filter (fun x => key_eqb (key x) (key x)) xs) = groupby key xs.
Proof.
  unfold groupby. rewrite unique_keys_filter. apply map_ext. intros k.
  f_equal. rewrite filter_filter. apply filter_ext. intros x.
  destruct (key_eqb (key x) k) eqn:E.
  - rewrite (key_eqb_refl_l _ _ E). reflexivity.
  - apply andb_false_r.
Qed.

(** X13. Records whose row key is NaN take no part in the aggregation: the
    row groups, their means and their dispersions (and an exception raised
    while computing them) are those of the frame without these records. *)
Theorem nan_row_keys_are_ignored :
  forall (a : args) (df : dataframe),
    aggregate a (filter (fun r => key_eqb (at_row_key r) (at_row_key r)) df) =
    aggregate a df.
Proof.
  intros a df. unfold aggregate. rewrite groupby_filter. reflexivity.
Qed.
